(** * trustme: certificate-authority hierarchy, leaf issuance and chain
      collection

    A shallow embedding of [src/trustme/__init__.py].  The cryptography,
    ipaddress and idna packages are collaborators of the program: their
    value classes (names, extensions, certificates) are data types here and
    their operations (key generation, signing, PEM encoding, address
    parsing, IDNA encoding, the random source) are the fields of a
    [Backend].  Everything the module itself computes is a Rocq function.

    The constructors of the value classes check their arguments as the
    cryptography package does where the module can reach the check: the
    length of a common name ([x509.NameAttribute]), the path length of
    [x509.BasicConstraints], the text of an [x509.RFC822Name], the validity
    dates of the certificate builder.  A lookup that can miss
    ([get_extension_for_class]) raises as the package documents.  A
    [datetime] is a date (a naive time at midnight). *)

From Stdlib Require Import ZArith List Bool Lia.
From Stdlib.Strings Require Import String Ascii Byte.
From Stdlib Require Import DecimalString.
Import ListNotations.
Local Open Scope string_scope.
Local Open Scope Z_scope.
Local Open Scope list_scope.

Set Implicit Arguments.

(** ** Python values and exceptions *)

(** A Python [str] is kept as the string of its UTF-8 bytes: the three
    string operations of the module (['@' in s], [s.startswith("*.")],
    [s[2:]] after that test) look for ASCII characters only and give the
    same answer on code points and on UTF-8 bytes. *)
Definition bytes := list byte.

(** The objects a caller can pass where the module expects a [str]. *)
Inductive pyobj : Type :=
| PyStr (s : string)
| PyBytes (b : bytes)
| PyInt (z : Z)
| PyNone.

(** The exceptions the module raises or lets through. *)
Inductive exn : Type :=
| ValueError (msg : string)
| TypeError (msg : string)
| IDNAError
| UnicodeDecodeError
| ExtensionNotFound
| LoadError (msg : string).

Inductive result (A : Type) : Type :=
| Ok (a : A)
| Err (e : exn).
Arguments Ok {A} a.
Arguments Err {A} e.

Definition isinstance_str (o : pyobj) : bool :=
  match o with PyStr _ => true | _ => false end.

(** ['c' in s] for a one-character needle. *)
Fixpoint str_contains (c : ascii) (s : string) : bool :=
  match s with
  | EmptyString => false
  | String a rest => if Ascii.eqb a c then true else str_contains c rest
  end.

(** [s.startswith(p)] *)
Fixpoint startswith (s p : string) {struct p} : bool :=
  match p with
  | EmptyString => true
  | String c p' =>
      match s with
      | EmptyString => false
      | String a s' => if Ascii.eqb a c then startswith s' p' else false
      end
  end.

(** [s[n:]] *)
Fixpoint str_drop (n : nat) (s : string) : string :=
  match n, s with
  | O, _ => s
  | S n', String _ rest => str_drop n' rest
  | S _, EmptyString => EmptyString
  end.

Definition is_ascii_byte (b : byte) : bool := (Byte.to_N b <? 128)%N.

(** [b.decode("ascii")] *)
Definition decode_ascii (b : bytes) : result string :=
  if forallb is_ascii_byte b then Ok (string_of_list_byte b)
  else Err UnicodeDecodeError.

(** [not l] for a tuple or list, and [o is None]. *)
Definition is_empty {A : Type} (l : list A) : bool :=
  match l with [] => true | _ :: _ => false end.

Definition is_None {A : Type} (o : option A) : bool :=
  match o with None => true | Some _ => false end.

(** Truthiness of an [Optional[str]]: [None] and [""] are false. *)
Definition str_truthy (o : option string) : option string :=
  match o with
  | Some EmptyString => None
  | Some s => Some s
  | None => None
  end.

(** ** The x509 data model *)

Inductive NameOID : Type :=
| ORGANIZATION_NAME
| ORGANIZATIONAL_UNIT_NAME
| COMMON_NAME.

Inductive ExtendedKeyUsageOID : Type :=
| CLIENT_AUTH
| SERVER_AUTH
| CODE_SIGNING.

Inductive HashAlgorithm : Type := SHA256.
Inductive EllipticCurve : Type := SECP256R1.

Record NameAttribute : Type := mkNameAttribute {
  attr_oid : NameOID;
  attr_value : string
}.

(** [str(n)] for a length. *)
Definition str_of_nat (n : nat) : string := NilZero.string_of_uint (Nat.to_uint n).

(** The bounds [x509.NameAttribute] puts on the UTF-8 length of a common
    name. *)
Definition common_name_length_ok (value : string) : bool :=
  (1 <=? String.length value)%nat && (String.length value <=? 64)%nat.

(** [x509.NameAttribute(oid, value)]: of the three attributes the module
    builds, the common name has length limits. *)
Definition NameAttribute_new (oid : NameOID) (value : string)
    : result NameAttribute :=
  match oid with
  | COMMON_NAME =>
      if common_name_length_ok value then Ok (mkNameAttribute oid value)
      else Err (ValueError
                  ("Attribute's length must be >= 1 and <= 64, but it was "
                   ++ str_of_nat (String.length value)))
  | _ => Ok (mkNameAttribute oid value)
  end.

(** [x509.Name(pieces)] keeps the pieces in the order given. *)
Definition Name := list NameAttribute.

Record datetime : Type := mkDatetime {
  year : Z; month : Z; day : Z
}.

(** [a < b] on dates. *)
Definition datetime_ltb (a b : datetime) : bool :=
  (year a <? year b)
  || ((year a =? year b)
      && ((month a <? month b)
          || ((month a =? month b) && (day a <? day b)))).

Definition EARLIEST_UTC_TIME : datetime := mkDatetime 1950 1 1.

(** [builder.not_valid_before(time)], nothing else being set yet. *)
Definition check_not_valid_before (time : datetime) : result unit :=
  if datetime_ltb time EARLIEST_UTC_TIME
  then Err (ValueError
              "The not valid before date must be on or after 1950 January 1.")
  else Ok tt.

(** [builder.not_valid_after(time)] once [not_valid_before] is set. *)
Definition check_not_valid_after (not_valid_before time : datetime)
    : result unit :=
  if datetime_ltb time EARLIEST_UTC_TIME
  then Err (ValueError
              "The not valid after date must be on or after 1950 January 1.")
  else if datetime_ltb time not_valid_before
  then Err (ValueError
              "The not valid after date must be after the not valid before date.")
  else Ok tt.

(** The validity windows the builder takes. *)
Definition window_ok (not_before not_after : datetime) : bool :=
  negb (datetime_ltb not_before EARLIEST_UTC_TIME)
  && negb (datetime_ltb not_after EARLIEST_UTC_TIME)
  && negb (datetime_ltb not_after not_before).

(** The types the collaborating packages own. *)
Class Primitives : Type := {
  PrivateKey : Type;
  PublicKey : Type;
  Signature : Type;
  IPv4or6Address : Type;
  IPv4or6Network : Type;
  Entropy : Type
}.

Section X509.
Context {P : Primitives}.

Inductive GeneralName : Type :=
| RFC822Name (value : string)
| DNSName (value : string)
| IPAddress (value : IPv4or6Address + IPv4or6Network).

Record SubjectKeyIdentifier : Type := mkSKI { digest : bytes }.

Record AuthorityKeyIdentifier : Type := mkAKI {
  key_identifier : option bytes;
  authority_cert_issuer : option (list GeneralName);
  authority_cert_serial_number : option Z
}.

Record BasicConstraints : Type := mkBasicConstraints {
  bc_ca : bool;
  bc_path_length : option Z
}.

(** [x509.BasicConstraints(ca, path_length)] *)
Definition BasicConstraints_new (ca : bool) (path_length : option Z)
    : result BasicConstraints :=
  match path_length with
  | Some n =>
      if negb ca
      then Err (ValueError "path_length must be None when ca is False")
      else if n <? 0
      then Err (TypeError "path_length must be a non-negative integer or None")
      else Ok (mkBasicConstraints ca path_length)
  | None => Ok (mkBasicConstraints ca path_length)
  end.

Record KeyUsage : Type := mkKeyUsage {
  digital_signature : bool;
  content_commitment : bool;
  key_encipherment : bool;
  data_encipherment : bool;
  key_agreement : bool;
  key_cert_sign : bool;
  crl_sign : bool;
  encipher_only : bool;
  decipher_only : bool
}.

Inductive ExtensionType : Type :=
| ExtSubjectKeyIdentifier (v : SubjectKeyIdentifier)
| ExtAuthorityKeyIdentifier (v : AuthorityKeyIdentifier)
| ExtBasicConstraints (v : BasicConstraints)
| ExtKeyUsage (v : KeyUsage)
| ExtSubjectAlternativeName (general_names : list GeneralName)
| ExtExtendedKeyUsage (usages : list ExtendedKeyUsageOID).

Record Extension : Type := mkExtension {
  ext_value : ExtensionType;
  critical : bool
}.

(** [x509.CertificateBuilder] once every field is set: the data that gets
    signed. *)
Record CertificateBuilder : Type := mkBuilder {
  b_subject : Name;
  b_issuer : Name;
  b_public_key : PublicKey;
  b_not_valid_before : datetime;
  b_not_valid_after : datetime;
  b_serial_number : Z;
  b_extensions : list Extension
}.

Record Certificate : Type := mkCertificate {
  tbs : CertificateBuilder;
  signature_hash_algorithm : HashAlgorithm;
  signature : Signature
}.

Definition subject (c : Certificate) : Name := b_subject (tbs c).
Definition issuer (c : Certificate) : Name := b_issuer (tbs c).
Definition extensions (c : Certificate) : list Extension := b_extensions (tbs c).

(** [builder.add_extension(ext, critical)] *)
Definition add_extension (b : CertificateBuilder) (v : ExtensionType)
    (crit : bool) : CertificateBuilder :=
  {| b_subject := b_subject b;
     b_issuer := b_issuer b;
     b_public_key := b_public_key b;
     b_not_valid_before := b_not_valid_before b;
     b_not_valid_after := b_not_valid_after b;
     b_serial_number := b_serial_number b;
     b_extensions := b_extensions b ++ [mkExtension v crit] |}.

Definition as_ski (v : ExtensionType) : option SubjectKeyIdentifier :=
  match v with ExtSubjectKeyIdentifier s => Some s | _ => None end.

Definition as_aki (v : ExtensionType) : option AuthorityKeyIdentifier :=
  match v with ExtAuthorityKeyIdentifier a => Some a | _ => None end.

Definition as_san (v : ExtensionType) : option (list GeneralName) :=
  match v with ExtSubjectAlternativeName l => Some l | _ => None end.

(** The extensions of one class, with their criticality, in certificate
    order. *)
Fixpoint extensions_of_class {A : Type} (cls : ExtensionType -> option A)
    (exts : list Extension) : list (A * bool) :=
  match exts with
  | [] => []
  | e :: rest =>
      match cls (ext_value e) with
      | Some a => (a, critical e) :: extensions_of_class cls rest
      | None => extensions_of_class cls rest
      end
  end.

(** [extensions.get_extension_for_class(cls)]: the first extension of the
    class, [ExtensionNotFound] when there is none. *)
Definition get_extension_for_class {A : Type} (cls : ExtensionType -> option A)
    (exts : list Extension) : result (A * bool) :=
  match extensions_of_class cls exts with
  | x :: _ => Ok x
  | [] => Err ExtensionNotFound
  end.

(** [AuthorityKeyIdentifier.from_issuer_subject_key_identifier(ski)] *)
Definition from_issuer_subject_key_identifier (ski : SubjectKeyIdentifier)
    : AuthorityKeyIdentifier :=
  {| key_identifier := Some (digest ski);
     authority_cert_issuer := None;
     authority_cert_serial_number := None |}.

End X509.

(** ** The collaborators *)

(** What the module calls in the cryptography, ipaddress, idna, os and
    base64 packages.  Random draws thread the [Entropy] they consume; a
    parser that raises [ValueError] (or [idna.IDNAError]) returns [None];
    [urlsafe_b64text] is [urlsafe_b64encode(...).decode("ascii")], whose
    alphabet is ASCII; [parseaddr] is [email.utils.parseaddr], which
    [x509.RFC822Name] consults and which returns a display name and an
    address. *)
Class Backend {P : Primitives} : Type := {
  rsa_generate_private_key : Z -> Z -> Entropy -> PrivateKey * Entropy;
  ec_generate_private_key : EllipticCurve -> Entropy -> PrivateKey * Entropy;
  public_key : PrivateKey -> PublicKey;
  ski_from_public_key : PublicKey -> SubjectKeyIdentifier;
  random_serial_number : Entropy -> Z * Entropy;
  os_urandom : nat -> Entropy -> bytes * Entropy;
  urlsafe_b64text : bytes -> string;
  sign : CertificateBuilder -> PrivateKey -> HashAlgorithm -> Signature;
  public_bytes : Certificate -> bytes;
  private_bytes : PrivateKey -> bytes;
  load_pem_x509_certificate : bytes -> result Certificate;
  load_pem_private_key : bytes -> result PrivateKey;
  ip_address : string -> option IPv4or6Address;
  ip_network : string -> option IPv4or6Network;
  idna_encode : string -> option bytes;
  __version__ : string;
  parseaddr : string -> string * string
}.

Inductive KeyType : Type := RSA | ECDSA.

(** [Blob] *)
Record Blob : Type := mkBlob { _data : bytes }.

(** [LeafCert] *)
Record LeafCert : Type := mkLeafCert {
  private_key_pem : Blob;
  cert_chain_pems : list Blob;
  private_key_and_cert_chain_pem : Blob
}.

(** [LeafCert.__init__] *)
Definition LeafCert_init (private_key_pem server_cert_pem : bytes)
    (chain_to_ca : list bytes) : LeafCert :=
  {| private_key_pem := mkBlob private_key_pem;
     cert_chain_pems := map mkBlob ([server_cert_pem] ++ chain_to_ca);
     private_key_and_cert_chain_pem :=
       mkBlob (private_key_pem ++ server_cert_pem ++ List.concat chain_to_ca) |}.

Definition DEFAULT_EXPIRY : datetime := mkDatetime 3000 1 1.
Definition DEFAULT_NOT_BEFORE : datetime := mkDatetime 2000 1 1.

Section Program.
Context {P : Primitives} {B : Backend}.

(** *** Effects: the random source and exceptions *)

Definition M (A : Type) : Type := Entropy -> result (A * Entropy).

Definition ret {A : Type} (a : A) : M A := fun e => Ok (a, e).

Definition bind {A C : Type} (m : M A) (f : A -> M C) : M C :=
  fun e => match m e with
           | Ok (a, e') => f a e'
           | Err x => Err x
           end.

Definition raise {A : Type} (x : exn) : M A := fun _ => Err x.

Definition draw {A : Type} (f : Entropy -> A * Entropy) : M A :=
  fun e => Ok (f e).

Definition lift {A : Type} (r : result A) : M A :=
  fun e => match r with Ok a => Ok (a, e) | Err x => Err x end.

Notation "x <- c ;; k" := (bind c (fun x => k))
  (at level 61, c at next level, right associativity).
Notation "' pat <- c ;; k" := (bind c (fun x => match x with pat => k end))
  (at level 61, pat pattern, c at next level, right associativity).

(** *** [_name] *)

Definition default_organization : string :=
  ("trustme v" ++ __version__)%string.

Definition _name (name : string) (organization_name common_name : option string)
    : result Name :=
  match NameAttribute_new ORGANIZATION_NAME
          (match str_truthy organization_name with
           | Some o => o
           | None => default_organization
           end) with
  | Err x => Err x
  | Ok organization =>
      match NameAttribute_new ORGANIZATIONAL_UNIT_NAME name with
      | Err x => Err x
      | Ok unit =>
          let name_pieces := [organization; unit] in
          match common_name with
          | Some cn =>
              match NameAttribute_new COMMON_NAME cn with
              | Err x => Err x
              | Ok common => Ok (name_pieces ++ [common])
              end
          | None => Ok name_pieces
          end
      end
  end.

(** *** [random_text] *)

Definition random_text : M string :=
  r <- draw (os_urandom 12) ;;
  ret (urlsafe_b64text r).

(** [organization_unit_name or label + random_text()]: the caller's unit
    name when it is a non-empty string, otherwise the label followed by
    random text (drawn only then). *)
Definition unit_name_or_random (label : string) (oun : option string) : M string :=
  match str_truthy oun with
  | Some u => ret u
  | None => t <- random_text ;; ret (label ++ t)%string
  end.

(** *** [_cert_builder_common] *)

Definition _cert_builder_common (subject issuer : Name) (pk : PublicKey)
    (not_after not_before : option datetime) : M CertificateBuilder :=
  let not_after := match not_after with Some d => d | None => DEFAULT_EXPIRY end in
  let not_before :=
    match not_before with Some d => d | None => DEFAULT_NOT_BEFORE end in
  _ <- lift (check_not_valid_before not_before) ;;
  _ <- lift (check_not_valid_after not_before not_after) ;;
  serial <- draw random_serial_number ;;
  ret (add_extension
         {| b_subject := subject;
            b_issuer := issuer;
            b_public_key := pk;
            b_not_valid_before := not_before;
            b_not_valid_after := not_after;
            b_serial_number := serial;
            b_extensions := [] |}
         (ExtSubjectKeyIdentifier (ski_from_public_key pk)) false).

(** *** [_identity_string_to_x509] *)

Definition wildcard_prefix : bytes := list_byte_of_string "*.".

(** What [x509.RFC822Name] takes: ASCII text in which [parseaddr] finds an
    address and no display name. *)
Definition rfc822_ascii (value : string) : bool :=
  forallb is_ascii_byte (list_byte_of_string value).

Definition rfc822_address_only (value : string) : bool :=
  match parseaddr value with
  | (EmptyString, String _ _) => true
  | _ => false
  end.

(** [x509.RFC822Name(value)] *)
Definition RFC822Name_new (value : string) : result GeneralName :=
  if rfc822_ascii value then
    if rfc822_address_only value then Ok (RFC822Name value)
    else Err (ValueError "Invalid rfc822name value")
  else Err (ValueError
              "RFC822Name values should be passed as an A-label string. This means unicode characters should be encoded via a library like idna.").

Definition _identity_string_to_x509 (identity : pyobj) : result GeneralName :=
  match identity with
  | PyStr identity =>
      if str_contains "@" identity then RFC822Name_new identity
      else
        match ip_address identity with
        | Some a => Ok (IPAddress (inl a))
        | None =>
            match ip_network identity with
            | Some n => Ok (IPAddress (inr n))
            | None =>
                match (if startswith identity "*."
                       then option_map (app wildcard_prefix)
                              (idna_encode (str_drop 2 identity))
                       else idna_encode identity) with
                | Some alabel_bytes =>
                    match decode_ascii alabel_bytes with
                    | Ok alabel => Ok (DNSName alabel)
                    | Err x => Err x
                    end
                | None => Err IDNAError
                end
            end
        end
  | _ => Err (TypeError "identities must be str")
  end.

(** [[_identity_string_to_x509(ident) for ident in identities]] *)
Fixpoint identities_to_x509 (identities : list pyobj)
    : result (list GeneralName) :=
  match identities with
  | [] => Ok []
  | ident :: rest =>
      match _identity_string_to_x509 ident with
      | Err x => Err x
      | Ok g =>
          match identities_to_x509 rest with
          | Err x => Err x
          | Ok gs => Ok (g :: gs)
          end
      end
  end.

(** *** [KeyType._generate_key] *)

Definition _generate_key (self : KeyType) : M PrivateKey :=
  match self with
  | RSA => draw (rsa_generate_private_key 65537 2048)
  | ECDSA => draw (ec_generate_private_key SECP256R1)
  end.

(** *** [CA] *)

(** The parent reference makes the type recursive through [option]; its
    induction principle is [CA_parent_ind] below. *)
#[local] Unset Elimination Schemes.
Inductive CA : Type := mkCA {
  parent_cert : option CA;
  _private_key : PrivateKey;
  _path_length : Z;
  _certificate : Certificate
}.
#[local] Set Elimination Schemes.

Definition ca_key_usage : KeyUsage :=
  {| digital_signature := true;
     content_commitment := false;
     key_encipherment := false;
     data_encipherment := false;
     key_agreement := false;
     key_cert_sign := true;
     crl_sign := true;
     encipher_only := false;
     decipher_only := false |}.

Definition sign_builder (b : CertificateBuilder) (k : PrivateKey)
    (alg : HashAlgorithm) : Certificate :=
  {| tbs := b; signature_hash_algorithm := alg; signature := sign b k alg |}.

(** [CA.__init__] *)
Definition CA_init (parent : option CA) (path_length : Z)
    (organization_name organization_unit_name : option string)
    (key_type : KeyType) : M CA :=
  private_key <- _generate_key key_type ;;
  unit_name <- unit_name_or_random "Testing CA #" organization_unit_name ;;
  name <- lift (_name unit_name organization_name None) ;;
  '(sign_key, issuer, aki) <-
      match parent with
      | Some parent_ca =>
          let parent_certificate := _certificate parent_ca in
          '(ski, _) <- lift (get_extension_for_class as_ski
                               (extensions parent_certificate)) ;;
          ret (_private_key parent_ca, subject parent_certificate,
               Some (from_issuer_subject_key_identifier ski))
      | None => ret (private_key, name, None)
      end ;;
  common <- _cert_builder_common name issuer (public_key private_key)
              None None ;;
  basic_constraints <- lift (BasicConstraints_new true (Some path_length)) ;;
  let cert_builder :=
    add_extension common (ExtBasicConstraints basic_constraints) true in
  let cert_builder :=
    match aki with
    | Some a => add_extension cert_builder (ExtAuthorityKeyIdentifier a) false
    | None => cert_builder
    end in
  ret {| parent_cert := parent;
         _private_key := private_key;
         _path_length := path_length;
         _certificate :=
           sign_builder (add_extension cert_builder (ExtKeyUsage ca_key_usage) true)
             sign_key SHA256 |}.

(** [CA.cert_pem] and [CA.private_key_pem] *)
Definition cert_pem (self : CA) : Blob := mkBlob (public_bytes (_certificate self)).
Definition ca_private_key_pem (self : CA) : Blob :=
  mkBlob (private_bytes (_private_key self)).

(** [CA.create_child_ca] *)
Definition create_child_ca (self : CA) (key_type : KeyType) : M CA :=
  if _path_length self =? 0
  then raise (ValueError "Can't create child CA: path length is 0")
  else
    let path_length := _path_length self - 1 in
    CA_init (Some self) path_length None None key_type.

Definition leaf_key_usage : KeyUsage :=
  {| digital_signature := true;
     content_commitment := false;
     key_encipherment := true;
     data_encipherment := false;
     key_agreement := false;
     key_cert_sign := false;
     crl_sign := false;
     encipher_only := false;
     decipher_only := false |}.

(** [CA.issue_cert], up to the signature: the fresh key and the signed leaf
    certificate. *)
Definition issue_cert_sign (self : CA) (identities : list pyobj)
    (common_name organization_name organization_unit_name : option string)
    (not_before not_after : option datetime) (key_type : KeyType)
    : M (PrivateKey * Certificate) :=
  if is_empty identities && is_None common_name
  then raise (ValueError "Must specify at least one identity or common name")
  else
    key <- _generate_key key_type ;;
    '(ski, _) <- lift (get_extension_for_class as_ski
                         (extensions (_certificate self))) ;;
    let aki := from_issuer_subject_key_identifier ski in
    unit_name <- unit_name_or_random "Testing cert #" organization_unit_name ;;
    name <- lift (_name unit_name organization_name common_name) ;;
    common <- _cert_builder_common name (subject (_certificate self))
                (public_key key) not_after not_before ;;
    basic_constraints <- lift (BasicConstraints_new false None) ;;
    let b := add_extension common (ExtBasicConstraints basic_constraints) true in
    let b := add_extension b (ExtAuthorityKeyIdentifier aki) false in
    san <- lift (identities_to_x509 identities) ;;
    let b := add_extension b (ExtSubjectAlternativeName san) true in
    let b := add_extension b (ExtKeyUsage leaf_key_usage) true in
    let b := add_extension b
               (ExtExtendedKeyUsage [CLIENT_AUTH; SERVER_AUTH; CODE_SIGNING])
               true in
    ret (key, sign_builder b (_private_key self) SHA256).

(** The [while ca.parent_cert is not None] loop of [issue_cert]. *)
Fixpoint collect_chain (ca : CA) (chain_to_ca : list bytes) : list bytes :=
  match ca with
  | mkCA (Some parent) _ _ certificate =>
      collect_chain parent (chain_to_ca ++ [public_bytes certificate])
  | mkCA None _ _ _ => chain_to_ca
  end.

(** [CA.issue_cert] *)
Definition issue_cert (self : CA) (identities : list pyobj)
    (common_name organization_name organization_unit_name : option string)
    (not_before not_after : option datetime) (key_type : KeyType)
    : M LeafCert :=
  '(key, cert) <- issue_cert_sign self identities common_name organization_name
                    organization_unit_name not_before not_after key_type ;;
  let chain_to_ca := collect_chain self [] in
  ret (LeafCert_init (private_bytes key) (public_bytes cert) chain_to_ca).

(** [CA.from_pem]: [cls()], the constructor with its declared defaults
    ([parent_cert=None], [path_length=9], no names, [KeyType.ECDSA]), whose
    three attributes are then overwritten. *)
Definition from_pem (cert_bytes private_key_bytes : bytes) : M CA :=
  ca <- CA_init None 9 None None ECDSA ;;
  let ca := mkCA None (_private_key ca) (_path_length ca) (_certificate ca) in
  certificate <- lift (load_pem_x509_certificate cert_bytes) ;;
  let ca := mkCA (parent_cert ca) (_private_key ca) (_path_length ca) certificate in
  private_key <- lift (load_pem_private_key private_key_bytes) ;;
  let ca := mkCA (parent_cert ca) private_key (_path_length ca) (_certificate ca) in
  ret ca.

End Program.

Arguments CA {P}.
Arguments mkCA {P} parent_cert _private_key _path_length _certificate.

(** ** The specification's wording of the operations

    Second definitions, written from the specification text, that the
    program's functions are compared with. *)

Section Wording.
Context {P : Primitives} {B : Backend}.

(** "starting at the issuing CA, while that CA has a parent, append its
    certificate encoding to the chain list and move to its parent; stop
    (without appending) once a CA with no parent is reached": the CAs whose
    certificates are appended, nearest to the leaf first. *)
Fixpoint chain_authorities (ca : CA) : list CA :=
  match parent_cert ca with
  | Some parent => ca :: chain_authorities parent
  | None => []
  end.

(** The CA with no parent that the walk stops at. *)
Fixpoint root_of (ca : CA) : CA :=
  match parent_cert ca with
  | Some parent => root_of parent
  | None => ca
  end.

(** The two value errors of [x509.RFC822Name]. *)
Definition rfc822_not_ascii : exn :=
  ValueError
    "RFC822Name values should be passed as an A-label string. This means unicode characters should be encoded via a library like idna.".

Definition rfc822_invalid : exn := ValueError "Invalid rfc822name value".

(** The identity classifier as an ordered list of rules (email, address,
    network, wildcard DNS, DNS), each applying only when the earlier ones
    do not.  A string with ['@'] goes to the email-name constructor as it
    is, which takes ASCII text holding an address and no display name and
    refuses anything else. *)
Inductive classifies : pyobj -> result GeneralName -> Prop :=
| classify_not_str o :
    isinstance_str o = false ->
    classifies o (Err (TypeError "identities must be str"))
| classify_email s :
    str_contains "@" s = true ->
    rfc822_ascii s = true ->
    rfc822_address_only s = true ->
    classifies (PyStr s) (Ok (RFC822Name s))
| classify_email_not_ascii s :
    str_contains "@" s = true ->
    rfc822_ascii s = false ->
    classifies (PyStr s) (Err rfc822_not_ascii)
| classify_email_refused s :
    str_contains "@" s = true ->
    rfc822_ascii s = true ->
    rfc822_address_only s = false ->
    classifies (PyStr s) (Err rfc822_invalid)
| classify_address s a :
    str_contains "@" s = false ->
    ip_address s = Some a ->
    classifies (PyStr s) (Ok (IPAddress (inl a)))
| classify_network s n :
    str_contains "@" s = false ->
    ip_address s = None ->
    ip_network s = Some n ->
    classifies (PyStr s) (Ok (IPAddress (inr n)))
| classify_wildcard_dns rest encoded :
    str_contains "@" ("*." ++ rest)%string = false ->
    ip_address ("*." ++ rest)%string = None ->
    ip_network ("*." ++ rest)%string = None ->
    idna_encode rest = Some encoded ->
    forallb is_ascii_byte encoded = true ->
    classifies (PyStr ("*." ++ rest)%string)
      (Ok (DNSName ("*." ++ string_of_list_byte encoded)%string))
| classify_dns s encoded :
    str_contains "@" s = false ->
    ip_address s = None ->
    ip_network s = None ->
    startswith s "*." = false ->
    idna_encode s = Some encoded ->
    forallb is_ascii_byte encoded = true ->
    classifies (PyStr s) (Ok (DNSName (string_of_list_byte encoded)))
| classify_wildcard_invalid rest :
    str_contains "@" ("*." ++ rest)%string = false ->
    ip_address ("*." ++ rest)%string = None ->
    ip_network ("*." ++ rest)%string = None ->
    idna_encode rest = None ->
    classifies (PyStr ("*." ++ rest)%string) (Err IDNAError)
| classify_dns_invalid s :
    str_contains "@" s = false ->
    ip_address s = None ->
    ip_network s = None ->
    startswith s "*." = false ->
    idna_encode s = None ->
    classifies (PyStr s) (Err IDNAError).

(** "Order of attributes is fixed: Organization, Organizational Unit,
    [Common Name]", the organization defaulting when it is omitted or
    empty. *)
Definition attributes_in_order (name : string)
    (organization_name common_name : option string) : Name :=
  [ mkNameAttribute ORGANIZATION_NAME
      (match str_truthy organization_name with
       | Some o => o
       | None => default_organization
       end);
    mkNameAttribute ORGANIZATIONAL_UNIT_NAME name ]
  ++ match common_name with
     | Some cn => [mkNameAttribute COMMON_NAME cn]
     | None => []
     end.

(** A common name that [x509.NameAttribute] takes, or none. *)
Definition common_name_ok (common_name : option string) : bool :=
  match common_name with
  | Some cn => common_name_length_ok cn
  | None => true
  end.

(** What every certificate starts from: names, public key, validity
    window with the defaults filled in, serial number, and the subject key
    identifier of the public key as first extension. *)
Definition builder_common (subj iss : Name) (pk : PublicKey)
    (nb na : option datetime) (serial : Z) : CertificateBuilder :=
  {| b_subject := subj;
     b_issuer := iss;
     b_public_key := pk;
     b_not_valid_before :=
       match nb with Some d => d | None => DEFAULT_NOT_BEFORE end;
     b_not_valid_after :=
       match na with Some d => d | None => DEFAULT_EXPIRY end;
     b_serial_number := serial;
     b_extensions :=
       [mkExtension (ExtSubjectKeyIdentifier (ski_from_public_key pk)) false] |}.

(** The validity window after the defaults are filled in. *)
Definition window_of (not_before not_after : option datetime) : bool :=
  window_ok (match not_before with Some d => d | None => DEFAULT_NOT_BEFORE end)
            (match not_after with Some d => d | None => DEFAULT_EXPIRY end).

(** The values of the attributes of a name that carry a given OID, in
    order ([Name.get_attributes_for_oid]). *)
Definition values_for_oid (oid : NameOID) (n : Name) : list string :=
  map attr_value
    (filter (fun a => match attr_oid a, oid with
                      | ORGANIZATION_NAME, ORGANIZATION_NAME
                      | ORGANIZATIONAL_UNIT_NAME, ORGANIZATIONAL_UNIT_NAME
                      | COMMON_NAME, COMMON_NAME => true
                      | _, _ => false
                      end) n).

(** "Certificate extensions, in order: Subject-Key-Identifier (derived from
    own public key, non-critical), Basic-Constraints (CA=true, the given path
    length, critical), Authority-Key-Identifier if applicable (non-critical),
    Key-Usage (critical)". *)
Definition ca_extensions (pk : PublicKey) (path_length : Z)
    (aki : option AuthorityKeyIdentifier) : list Extension :=
  [ mkExtension (ExtSubjectKeyIdentifier (ski_from_public_key pk)) false;
    mkExtension (ExtBasicConstraints (mkBasicConstraints true (Some path_length)))
      true ]
  ++ match aki with
     | Some a => [mkExtension (ExtAuthorityKeyIdentifier a) false]
     | None => []
     end
  ++ [mkExtension (ExtKeyUsage ca_key_usage) true].

(** "Extensions, in order: Subject-Key-Identifier (own), Basic-Constraints
    (CA=false, critical), Authority-Key-Identifier (non-critical),
    Subject-Alternative-Name (critical), Key-Usage (critical),
    Extended-Key-Usage (critical)". *)
Definition leaf_extensions (pk : PublicKey) (aki : AuthorityKeyIdentifier)
    (san : list GeneralName) : list Extension :=
  [ mkExtension (ExtSubjectKeyIdentifier (ski_from_public_key pk)) false;
    mkExtension (ExtBasicConstraints (mkBasicConstraints false None)) true;
    mkExtension (ExtAuthorityKeyIdentifier aki) false;
    mkExtension (ExtSubjectAlternativeName san) true;
    mkExtension (ExtKeyUsage leaf_key_usage) true;
    mkExtension (ExtExtendedKeyUsage [CLIENT_AUTH; SERVER_AUTH; CODE_SIGNING])
      true ].

(** The builder of a leaf certificate: the common part followed by the
    five extensions [issue_cert] adds. *)
Definition leaf_builder (name iss : Name) (pk : PublicKey)
    (nb na : option datetime) (serial : Z) (aki : AuthorityKeyIdentifier)
    (san : list GeneralName) : CertificateBuilder :=
  {| b_subject := name;
     b_issuer := iss;
     b_public_key := pk;
     b_not_valid_before :=
       match nb with Some d => d | None => DEFAULT_NOT_BEFORE end;
     b_not_valid_after :=
       match na with Some d => d | None => DEFAULT_EXPIRY end;
     b_serial_number := serial;
     b_extensions := leaf_extensions pk aki san |}.

(** The domain error of [create_child_ca]. *)
Definition path_length_exhausted : exn :=
  ValueError "Can't create child CA: path length is 0".

(** The type error of [x509.BasicConstraints]. *)
Definition negative_path_length : exn :=
  TypeError "path_length must be a non-negative integer or None".

(** The validation error of [issue_cert]. *)
Definition no_identity : exn :=
  ValueError "Must specify at least one identity or common name".

(** A CA whose certificate carries a subject-key-identifier extension. *)
Definition has_subject_key_identifier (ca : CA) : Prop :=
  extensions_of_class as_ski (extensions (_certificate ca)) <> [].

End Wording.

(** ** A deterministic backend

    Keys, serial numbers and the random source are counters, a signature
    records the signing key and the serial number it covers, and the
    parsers know a handful of inputs.  The definitions above run on it. *)

Module Stub.

Definition prims : Primitives :=
  {| PrivateKey := Z;
     PublicKey := Z;
     Signature := Z * Z;
     IPv4or6Address := string;
     IPv4or6Network := string;
     Entropy := Z |}.

Definition key_bytes (tag : string) (k : Z) : bytes :=
  list_byte_of_string tag ++ repeat x01 (Z.to_nat k).

Definition parse_address (s : string) : option string :=
  if String.eqb s "127.0.0.1" then Some s
  else if String.eqb s "::1" then Some s
  else None.

(** Like [ipaddress.ip_network], a bare address is also a one-host
    network. *)
Definition parse_network (s : string) : option string :=
  if String.eqb s "127.0.0.1" then Some "127.0.0.1/32"
  else if String.eqb s "::1" then Some "::1/128"
  else if String.eqb s "10.0.0.0/8" then Some s
  else if String.eqb s "2001::/16" then Some s
  else None.

(** ASCII names encode to themselves; the empty name and names with other
    bytes are refused. *)
Definition encode_ascii_name (s : string) : option bytes :=
  match s with
  | EmptyString => None
  | _ => if forallb is_ascii_byte (list_byte_of_string s)
         then Some (list_byte_of_string s)
         else None
  end.

(** A certificate as it might come from elsewhere: no subject key
    identifier, or one together with a path length of 0. *)
Definition foreign_certificate (with_ski : bool)
    : Certificate (P := prims) :=
  {| tbs :=
       {| b_subject := [mkNameAttribute COMMON_NAME "Foreign CA"];
          b_issuer := [mkNameAttribute COMMON_NAME "Foreign CA"];
          b_public_key := 7 : PublicKey (Primitives := prims);
          b_not_valid_before := DEFAULT_NOT_BEFORE;
          b_not_valid_after := DEFAULT_EXPIRY;
          b_serial_number := 1;
          b_extensions :=
            if with_ski
            then [ mkExtension (ExtSubjectKeyIdentifier (mkSKI [x07])) false;
                   mkExtension
                     (ExtBasicConstraints (mkBasicConstraints true (Some 0)))
                     true ]
            else [] |};
     signature_hash_algorithm := SHA256;
     signature := (7, 1) : Signature (Primitives := prims) |}.

Definition load_certificate (b : bytes) : result (Certificate (P := prims)) :=
  match b with
  | [] => Err (LoadError "no certificate found")
  | x00 :: _ => Ok (foreign_certificate false)
  | _ => Ok (foreign_certificate true)
  end.

Definition load_key (b : bytes) : result Z :=
  match b with
  | [] => Err (LoadError "no key found")
  | _ => Ok 7
  end.

(** Text with a space in it has a display name in front of the address;
    a lone ["@"] holds neither name nor address. *)
Definition split_address (s : string) : string * string :=
  if str_contains " " s then ("name", "address")
  else if String.eqb s "@" then ("", "")
  else ("", s).

Definition next_key (e : Z) : Z * Z := (e, e + 1).
Definition next_bytes (n : nat) (e : Z) : bytes * Z := (repeat x00 n, e + 1).
Definition stub_sign (b : CertificateBuilder (P := prims)) (k : Z)
    (alg : HashAlgorithm) : Z * Z := (k, b_serial_number b).
Definition stub_public_bytes (c : Certificate (P := prims)) : bytes :=
  key_bytes "CERT" (b_serial_number (tbs c)).

Definition backend : Backend (P := prims) :=
  @Build_Backend prims
    (fun _ _ => next_key)
    (fun _ => next_key)
    (fun k : Z => k)
    (fun k : Z => mkSKI (key_bytes "" k))
    next_key
    next_bytes
    (fun _ => "AAAAAAAAAAAAAAAA")
    stub_sign
    stub_public_bytes
    (key_bytes "KEY")
    load_certificate
    load_key
    parse_address
    parse_network
    encode_ascii_name
    "1.1.0"
    split_address.

#[local] Existing Instance prims.
#[local] Existing Instance backend.

(** Runs on the stub: a root CA, two levels of children, a CA imported
    from a certificate without subject key identifier, one imported from a
    certificate that has one and declares path length 0, a CA whose stored
    path length was set to a negative number, and leaves. *)
Definition placeholder : CA := mkCA None 0 0 (foreign_certificate false).

Definition value_of {A : Type} (default : A) (r : result (A * Z)) : A :=
  match r with Ok (a, _) => a | Err _ => default end.

Definition root : CA :=
  Eval vm_compute in value_of placeholder (CA_init None 9 None None ECDSA 0).

Definition intermediate : CA :=
  Eval vm_compute in value_of placeholder (create_child_ca root ECDSA 3).

Definition issuing : CA :=
  Eval vm_compute in value_of placeholder (create_child_ca intermediate RSA 6).





Definition imported_with_ski : CA :=
  Eval vm_compute in value_of placeholder (from_pem [x01] [x01] 0).

Definition no_leaf : LeafCert := LeafCert_init [] [] [].

Definition leaf : LeafCert :=
  Eval vm_compute in
    value_of no_leaf
      (issue_cert issuing [PyStr "example.com"] None None None None None ECDSA 9).

Definition root_leaf : LeafCert :=
  Eval vm_compute in
    value_of no_leaf
      (issue_cert root [] (Some "legacy") None None None None ECDSA 3).

End Stub.

(** ** Clients of the CA operations *)

Section Clients.
Context {P : Primitives} {B : Backend}.

Definition as_basic_constraints (v : ExtensionType) : option BasicConstraints :=
  match v with ExtBasicConstraints b => Some b | _ => None end.

Definition as_key_usage (v : ExtensionType) : option KeyUsage :=
  match v with ExtKeyUsage k => Some k | _ => None end.

Definition as_extended_key_usage (v : ExtensionType)
    : option (list ExtendedKeyUsageOID) :=
  match v with ExtExtendedKeyUsage l => Some l | _ => None end.

(** [ca.create_child_ca(k1).create_child_ca(k2)...]: one level of child CA
    per key type in the list. *)
Fixpoint descend (key_types : list KeyType) (ca : CA) : M CA :=
  match key_types with
  | [] => ret ca
  | kt :: rest => bind (create_child_ca ca kt) (descend rest)
  end.

(** [CA.from_pem(ca.cert_pem.bytes(), ca.private_key_pem.bytes())] *)
Definition reimport (ca : CA) : M CA :=
  from_pem (_data (cert_pem ca)) (_data (ca_private_key_pem ca)).

End Clients.

(** ** Files and TLS contexts

    [Blob.write_to_path], [Blob.tempfile], [CA.configure_trust] and
    [LeafCert.configure_cert] act on the file system and on a context object.
    A file system maps a path to the contents of the file there; every path
    can be opened for writing.  A context is known by what the module asks
    of it: whether it is an [ssl.SSLContext], its [__module__] and class
    name, and the calls made on it so far.  An [OpenSSL.crypto] key or
    certificate object is identified with the PEM bytes it is loaded from. *)

Inductive os_exn : Type :=
| Raised (x : exn)
| FileNotFoundError (path : string)
| IndexError.

Inductive outcome (A : Type) : Type :=
| Returns (a : A)
| Raises (x : os_exn).
Arguments Returns {A} a.
Arguments Raises {A} x.

Definition FileSystem : Type := string -> option bytes.

Definition fs_put (path : string) (contents : bytes) (fs : FileSystem)
    : FileSystem :=
  fun p => if String.eqb p path then Some contents else fs p.

Definition fs_unlink (path : string) (fs : FileSystem) : FileSystem :=
  fun p => if String.eqb p path then None else fs p.

Inductive open_mode : Type := mode_ab | mode_wb.

(** [with open(path, mode) as f: f.write(data)]: ["wb"] truncates or
    creates, ["ab"] writes at the end of what is there, creating the file
    when there is none. *)
Definition open_and_write (path : string) (mode : open_mode) (data : bytes)
    (fs : FileSystem) : FileSystem :=
  match mode with
  | mode_wb => fs_put path data fs
  | mode_ab =>
      fs_put path (match fs path with Some old => old | None => [] end ++ data) fs
  end.

(** [Blob.bytes] *)
Definition Blob_bytes (self : Blob) : bytes := _data self.

(** [Blob.write_to_path] *)
Definition write_to_path (self : Blob) (path : string) (append : bool)
    (fs : FileSystem) : FileSystem :=
  let mode := if append then mode_ab else mode_wb in
  open_and_write path mode (_data self) fs.

(** [blob.write_to_path(path, append=True)] for each blob of a list, in
    order. *)
Definition append_all (blobs : list Blob) (path : string) (fs : FileSystem)
    : FileSystem :=
  fold_left (fun fs b => write_to_path b path true fs) blobs fs.

Inductive ctx_call : Type :=
| load_verify_locations (cadata : string)
| load_cert_chain (certfile : string) (contents : bytes)
| add_cert (pem : bytes)
| use_privatekey (pem : bytes)
| use_certificate (pem : bytes)
| add_extra_chain_cert (pem : bytes).

Record context : Type := mkContext {
  is_SSLContext : bool;
  module_attr : option string;
  class_name : string;
  calls : list ctx_call
}.

(** [ctx.method(...)]: the call is added to those made on the context. *)
Definition call (c : ctx_call) (ctx : context) : context :=
  {| is_SSLContext := is_SSLContext ctx;
     module_attr := module_attr ctx;
     class_name := class_name ctx;
     calls := calls ctx ++ [c] |}.

(** [getattr(ctx, "__module__", "").startswith("OpenSSL")] *)
Definition _smells_like_pyopenssl (ctx : context) : bool :=
  startswith (match module_attr ctx with Some m => m | None => "" end) "OpenSSL".

(** ["unrecognized context type {!r}".format(ctx.__class__.__name__)]; a
    class name is an identifier, whose [repr] is the name between single
    quotes. *)
Definition unrecognized_context (ctx : context) : exn :=
  TypeError ("unrecognized context type '" ++ class_name ctx ++ "'")%string.

Section Contexts.
Context {P : Primitives} {B : Backend}.

(** The path [NamedTemporaryFile(suffix=".pem", dir=dir, delete=False)]
    creates its file at. *)
Variable temp_name : option string -> FileSystem -> string.

(** [with blob.tempfile(dir) as path: body(path)].  The file is created and
    written before the body runs; when the body returns or raises, the
    [finally] clause unlinks the file, and [os.unlink] raises
    [FileNotFoundError] when it is no longer there. *)
Definition with_tempfile {St A : Type} (self : Blob) (dir : option string)
    (body : string -> FileSystem * St -> outcome A * (FileSystem * St))
    (w : FileSystem * St) : outcome A * (FileSystem * St) :=
  let name := temp_name dir (fst w) in
  let fs := fs_put name [] (fst w) in
  let fs := open_and_write name mode_ab (_data self) fs in
  let '(r, (fs, st)) := body name (fs, snd w) in
  match fs name with
  | Some _ => (r, (fs_unlink name fs, st))
  | None => (Raises (FileNotFoundError name), (fs, st))
  end.

(** [CA.configure_trust] *)
Definition configure_trust (self : CA) (ctx : context)
    : outcome unit * context :=
  if is_SSLContext ctx then
    match decode_ascii (Blob_bytes (cert_pem self)) with
    | Ok cadata => (Returns tt, call (load_verify_locations cadata) ctx)
    | Err x => (Raises (Raised x), ctx)
    end
  else if _smells_like_pyopenssl ctx then
    let cert := Blob_bytes (cert_pem self) in
    (Returns tt, call (add_cert cert) ctx)
  else (Raises (Raised (unrecognized_context ctx)), ctx).

(** [ctx.load_cert_chain(path)] reads the file at the path. *)
Definition ctx_load_cert_chain (path : string) (w : FileSystem * context)
    : outcome unit * (FileSystem * context) :=
  match fst w path with
  | Some contents =>
      (Returns tt, (fst w, call (load_cert_chain path contents) (snd w)))
  | None => (Raises (FileNotFoundError path), w)
  end.

(** [LeafCert.configure_cert] *)
Definition configure_cert (self : LeafCert) (w : FileSystem * context)
    : outcome unit * (FileSystem * context) :=
  let ctx := snd w in
  if is_SSLContext ctx then
    with_tempfile (private_key_and_cert_chain_pem self) None
      ctx_load_cert_chain w
  else if _smells_like_pyopenssl ctx then
    let key := Blob_bytes (private_key_pem self) in
    let ctx := call (use_privatekey key) ctx in
    match cert_chain_pems self with
    | [] => (Raises IndexError, (fst w, ctx))
    | first :: rest =>
        let ctx := call (use_certificate (Blob_bytes first)) ctx in
        let ctx :=
          fold_left (fun ctx pem => call (add_extra_chain_cert (Blob_bytes pem)) ctx)
            rest ctx in
        (Returns tt, (fst w, ctx))
    end
  else (Raises (Raised (unrecognized_context ctx)), w).

End Contexts.

(** ** More runs on the deterministic backend *)

Module Fixtures.
Import Stub.
#[local] Existing Instance prims.
#[local] Existing Instance backend.

Definition three_identities : list pyobj :=
  [PyStr "example.com"; PyStr "127.0.0.1"; PyStr "a@b.com"].

Definition unsigned : Z * Certificate := (0, foreign_certificate false).

(** The key and certificate of a leaf issued at the third level. *)
Definition signed : Z * Certificate :=
  Eval vm_compute in
    value_of unsigned
      (issue_cert_sign issuing three_identities None None None None None ECDSA 9).

Definition year_2020 : datetime := mkDatetime 2020 1 1.
Definition year_2030 : datetime := mkDatetime 2030 1 1.

(** The key and certificate of a leaf issued by the root with its own
    validity window, unit name and common name. *)
Definition root_signed : Z * Certificate :=
  Eval vm_compute in
    value_of unsigned
      (issue_cert_sign root [PyStr "example.com"] (Some "host") None (Some "web")
         (Some year_2020) (Some year_2030) RSA 3).


Fixpoint bytes_eqb (a b : bytes) : bool :=
  match a, b with
  | [], [] => true
  | x :: a', y :: b' => if Byte.eqb x y then bytes_eqb a' b' else false
  | _, _ => false
  end.

(** The deterministic backend with loaders that also read back what the
    intermediate CA exports. *)
Definition reading_backend : Backend :=
  @Build_Backend prims
    (fun _ _ => next_key)
    (fun _ => next_key)
    (fun k : Z => k)
    (fun k : Z => mkSKI (key_bytes "" k))
    next_key
    next_bytes
    (fun _ => "AAAAAAAAAAAAAAAA")
    stub_sign
    stub_public_bytes
    (key_bytes "KEY")
    (fun b => if bytes_eqb b (stub_public_bytes (_certificate intermediate))
              then Ok (_certificate intermediate)
              else load_certificate b)
    (fun b => if bytes_eqb b (key_bytes "KEY" (_private_key intermediate))
              then Ok (_private_key intermediate)
              else load_key b)
    parse_address
    parse_network
    encode_ascii_name
    "1.1.0"
    split_address.

Definition reimported : CA :=
  Eval vm_compute in
    value_of placeholder (reimport (B := reading_backend) intermediate 0).

Definition temp_path (dir : option string) (fs : FileSystem) : string :=
  (match dir with Some d => d | None => "/tmp" end ++ "/tmp0.pem")%string.

Definition no_files : FileSystem := fun _ => None.

Definition one_file : FileSystem := fs_put "/srv/server.pem" [x2d] no_files.

Definition ssl_context : context :=
  mkContext true (Some "ssl") "SSLContext" [].

Definition pyopenssl_context : context :=
  mkContext false (Some "OpenSSL.SSL") "Context" [].

Definition other_context : context :=
  mkContext false (Some "builtins") "dict" [].

(** A body that deletes the file it is given. *)
Definition deleting_body (name : string) (w : FileSystem * context)
    : outcome unit * (FileSystem * context) :=
  (Returns tt, (fs_unlink name (fst w), snd w)).

End Fixtures.

(** ** Properties *)

Section Properties.
Context {P : Primitives} {B : Backend}.

(** *** Reasoning about the effects *)

Lemma bind_Ok_inv {A C : Type} (m : M A) (f : A -> M C) e c e' :
  bind m f e = Ok (c, e') ->
  exists a e1, m e = Ok (a, e1) /\ f a e1 = Ok (c, e').
Proof.
  unfold bind. destruct (m e) as [[a e1]|x]; [|discriminate].
  intros H. exists a, e1. split; [reflexivity|exact H].
Qed.

Lemma bind_Ok {A C : Type} (m : M A) (f : A -> M C) e a e1 :
  m e = Ok (a, e1) -> bind m f e = f a e1.
Proof. unfold bind. intros ->. reflexivity. Qed.


Lemma draw_Ok {A : Type} (f : Entropy -> A * Entropy) e :
  draw f e = Ok (fst (f e), snd (f e)).
Proof. unfold draw. destruct (f e); reflexivity. Qed.

Lemma lift_Ok_inv {A : Type} (r : result A) e a e' :
  lift r e = Ok (a, e') -> r = Ok a /\ e' = e.
Proof. unfold lift. destruct r; [|discriminate]. now intros [= -> ->]. Qed.

Lemma _generate_key_Ok (kt : KeyType) e :
  exists k e1, _generate_key kt e = Ok (k, e1).
Proof.
  destruct kt; unfold _generate_key; rewrite draw_Ok; eauto.
Qed.

Lemma random_text_Ok e : exists t e1, random_text e = Ok (t, e1).
Proof.
  unfold random_text. rewrite (bind_Ok _ _ _ (draw_Ok _ _)).
  unfold ret. eauto.
Qed.

Lemma unit_name_or_random_Ok label oun e :
  exists u e1, unit_name_or_random label oun e = Ok (u, e1).
Proof.
  unfold unit_name_or_random. destruct (str_truthy oun) as [u|].
  - unfold ret. eauto.
  - destruct (random_text_Ok e) as (t & e1 & Ht).
    rewrite (bind_Ok _ _ _ Ht). unfold ret. eauto.
Qed.

Lemma _name_result name on cn :
  _name name on cn
  = if common_name_ok cn then Ok (attributes_in_order name on cn)
    else Err (ValueError
                ("Attribute's length must be >= 1 and <= 64, but it was "
                 ++ str_of_nat (String.length
                                  match cn with Some c => c | None => "" end))).
Proof.
  unfold _name, attributes_in_order, common_name_ok. cbn [NameAttribute_new].
  destruct cn as [c|]; [|reflexivity].
  now destruct (common_name_length_ok c).
Qed.

Lemma _name_without_common_name name on :
  _name name on None = Ok (attributes_in_order name on None).
Proof. now rewrite _name_result. Qed.

Lemma window_checks nb na :
  window_ok nb na = true <->
  check_not_valid_before nb = Ok tt /\ check_not_valid_after nb na = Ok tt.
Proof.
  unfold window_ok, check_not_valid_before, check_not_valid_after.
  destruct (datetime_ltb nb EARLIEST_UTC_TIME),
           (datetime_ltb na EARLIEST_UTC_TIME),
           (datetime_ltb na nb); cbn; split; try discriminate;
    try (intros [H1 H2]; discriminate); now intros.
Qed.

Lemma _cert_builder_common_Ok subj iss pk na nb e :
  window_of nb na = true ->
  exists serial e1,
    _cert_builder_common subj iss pk na nb e
      = Ok (builder_common subj iss pk nb na serial, e1).
Proof.
  unfold window_of. intros Hw. apply window_checks in Hw as [Hb Ha].
  unfold _cert_builder_common.
  unfold bind at 1. unfold lift at 1. rewrite Hb.
  unfold bind at 1. unfold lift at 1. rewrite Ha.
  rewrite (bind_Ok _ _ _ (draw_Ok _ _)).
  unfold ret, add_extension, builder_common. cbn. eauto.
Qed.

Lemma _cert_builder_common_inv subj iss pk na nb e b e1 :
  _cert_builder_common subj iss pk na nb e = Ok (b, e1) ->
  window_of nb na = true /\
  exists serial, b = builder_common subj iss pk nb na serial.
Proof.
  intros H. destruct (window_of nb na) eqn:Hw.
  - split; [reflexivity|].
    destruct (_cert_builder_common_Ok subj iss pk na nb e Hw)
      as (serial & e2 & Hok).
    rewrite Hok in H. injection H as <- _. eauto.
  - exfalso. unfold _cert_builder_common in H.
    apply bind_Ok_inv in H as ([] & e2 & Hb & H).
    apply bind_Ok_inv in H as ([] & e3 & Ha & _).
    apply lift_Ok_inv in Hb as [Hb _]. apply lift_Ok_inv in Ha as [Ha _].
    assert (Hok : window_of nb na = true)
      by (unfold window_of; apply window_checks; now split).
    congruence.
Qed.

Lemma _cert_builder_common_error subj iss pk na nb e x :
  _cert_builder_common subj iss pk na nb e = Err x ->
  window_of nb na = false /\
  (x = ValueError
         "The not valid before date must be on or after 1950 January 1." \/
   x = ValueError
         "The not valid after date must be on or after 1950 January 1." \/
   x = ValueError
         "The not valid after date must be after the not valid before date.").
Proof.
  intros H. destruct (window_of nb na) eqn:Hw.
  - destruct (_cert_builder_common_Ok subj iss pk na nb e Hw)
      as (serial & e2 & Hok). congruence.
  - split; [reflexivity|]. unfold _cert_builder_common in H.
    unfold bind at 1 in H. unfold lift at 1 in H.
    unfold check_not_valid_before in H.
    destruct (datetime_ltb _ EARLIEST_UTC_TIME); [injection H as <-; now left|].
    unfold bind at 1 in H. unfold lift at 1 in H.
    unfold check_not_valid_after in H.
    destruct (datetime_ltb _ EARLIEST_UTC_TIME);
      [injection H as <-; now right; left|].
    destruct (datetime_ltb _ _); [injection H as <-; now right; right|].
    rewrite (bind_Ok _ _ _ (draw_Ok _ _)) in H. unfold ret in H. discriminate.
Qed.

(** *** Induction along parent references *)

Lemma CA_parent_ind (Q : CA -> Prop) :
  (forall k n c, Q (mkCA None k n c)) ->
  (forall p k n c, Q p -> Q (mkCA (Some p) k n c)) ->
  forall ca, Q ca.
Proof.
  intros Hroot Hchild. fix IH 1. intros [[p|] k n c].
  - apply Hchild, IH.
  - apply Hroot.
Qed.

(** The loop of [issue_cert] appends, to what it was given, the encoded
    certificates of the CAs the specification's walk visits. *)
Lemma collect_chain_walk (ca : CA) :
  forall acc,
    collect_chain ca acc =
      acc ++ map (fun c => public_bytes (_certificate c)) (chain_authorities ca).
Proof.
  induction ca as [k n c | p k n c IH] using CA_parent_ind; intros acc; cbn.
  - now rewrite app_nil_r.
  - rewrite IH, <- app_assoc. reflexivity.
Qed.

(** *** What the constructor builds *)

Lemma has_ski_lookup (ca : CA) :
  has_subject_key_identifier ca ->
  exists ski crit,
    get_extension_for_class as_ski (extensions (_certificate ca)) = Ok (ski, crit).
Proof.
  unfold has_subject_key_identifier, get_extension_for_class.
  destruct (extensions_of_class as_ski (extensions (_certificate ca)))
    as [|[ski crit] rest]; [congruence|eauto].
Qed.


Lemma missing_ski_lookup (ca : CA) :
  ~ has_subject_key_identifier ca ->
  get_extension_for_class as_ski (extensions (_certificate ca))
    = Err ExtensionNotFound.
Proof.
  unfold has_subject_key_identifier, get_extension_for_class.
  destruct (extensions_of_class as_ski (extensions (_certificate ca)));
    [reflexivity|]. intros H. exfalso. apply H. discriminate.
Qed.

Lemma BasicConstraints_new_ca pl :
  BasicConstraints_new true (Some pl)
  = if pl <? 0 then Err negative_path_length
    else Ok (mkBasicConstraints true (Some pl)).
Proof. reflexivity. Qed.

(** [CA(...)] up to the basic-constraints check: the key, the names, the
    signing key and the common part of the builder. *)
Lemma CA_init_unfold parent pl on oun kt e :
  exists key e1 u e2,
    _generate_key kt e = Ok (key, e1) /\
    unit_name_or_random "Testing CA #" oun e1 = Ok (u, e2) /\
    CA_init parent pl on oun kt e
    = match
        match parent with
        | Some p =>
            match get_extension_for_class as_ski (extensions (_certificate p)) with
            | Ok (ski, _) =>
                Ok (_private_key p, subject (_certificate p),
                    Some (from_issuer_subject_key_identifier ski))
            | Err x => Err x
            end
        | None => Ok (key, attributes_in_order u on None, None)
        end
      with
      | Err x => Err x
      | Ok (sign_key, iss, aki) =>
          if pl <? 0 then Err negative_path_length
          else
            Ok ({| parent_cert := parent;
                   _private_key := key;
                   _path_length := pl;
                   _certificate :=
                     sign_builder
                       {| b_subject := attributes_in_order u on None;
                          b_issuer := iss;
                          b_public_key := public_key key;
                          b_not_valid_before := DEFAULT_NOT_BEFORE;
                          b_not_valid_after := DEFAULT_EXPIRY;
                          b_serial_number := fst (random_serial_number e2);
                          b_extensions := ca_extensions (public_key key) pl aki |}
                       sign_key SHA256 |},
                snd (random_serial_number e2))
      end.
Proof.
  destruct (_generate_key_Ok kt e) as (key & e1 & Hk).
  destruct (unit_name_or_random_Ok "Testing CA #" oun e1) as (u & e2 & Hu).
  exists key, e1, u, e2. split; [exact Hk|]. split; [exact Hu|].
  unfold CA_init. rewrite (bind_Ok _ _ _ Hk), (bind_Ok _ _ _ Hu).
  unfold bind at 1. unfold lift at 1. rewrite _name_without_common_name.
  assert (Hrest : forall sign_key iss aki,
    bind (_cert_builder_common (attributes_in_order u on None) iss
            (public_key key) None None)
      (fun common =>
         bind (lift (BasicConstraints_new true (Some pl)))
           (fun basic_constraints =>
              ret {| parent_cert := parent;
                     _private_key := key;
                     _path_length := pl;
                     _certificate :=
                       sign_builder
                         (add_extension
                            match aki with
                            | Some a =>
                                add_extension
                                  (add_extension common
                                     (ExtBasicConstraints basic_constraints) true)
                                  (ExtAuthorityKeyIdentifier a) false
                            | None =>
                                add_extension common
                                  (ExtBasicConstraints basic_constraints) true
                            end (ExtKeyUsage ca_key_usage) true)
                         sign_key SHA256 |})) e2
    = if pl <? 0 then Err negative_path_length
      else
        Ok ({| parent_cert := parent;
               _private_key := key;
               _path_length := pl;
               _certificate :=
                 sign_builder
                   {| b_subject := attributes_in_order u on None;
                      b_issuer := iss;
                      b_public_key := public_key key;
                      b_not_valid_before := DEFAULT_NOT_BEFORE;
                      b_not_valid_after := DEFAULT_EXPIRY;
                      b_serial_number := fst (random_serial_number e2);
                      b_extensions := ca_extensions (public_key key) pl aki |}
                   sign_key SHA256 |},
            snd (random_serial_number e2))).
  { intros sign_key iss aki.
    unfold _cert_builder_common, bind, lift, draw, ret.
    change (check_not_valid_before DEFAULT_NOT_BEFORE) with (@Ok unit tt).
    change (check_not_valid_after DEFAULT_NOT_BEFORE DEFAULT_EXPIRY)
      with (@Ok unit tt).
    cbv iota. destruct (random_serial_number e2) as [serial e3].
    rewrite BasicConstraints_new_ca. destruct (pl <? 0); [reflexivity|].
    cbn [fst snd]. unfold ca_extensions, add_extension. cbn.
    destruct aki; reflexivity. }
  destruct parent as [p|].
  - unfold bind at 1. unfold bind at 1. unfold lift at 1.
    destruct (get_extension_for_class as_ski (extensions (_certificate p)))
      as [[ski crit]|x]; [|reflexivity].
    unfold ret at 1.
    exact (Hrest (_private_key p) (subject (_certificate p))
             (Some (from_issuer_subject_key_identifier ski))).
  - unfold bind at 1. unfold ret at 1.
    exact (Hrest key (attributes_in_order u on None) None).
Qed.

(** The result of a successful [CA(...)] call, field by field. *)
Lemma CA_init_inv parent pl on oun kt e ca e' :
  CA_init parent pl on oun kt e = Ok (ca, e') ->
  exists unit_name serial sign_key iss aki,
    parent_cert ca = parent /\
    _path_length ca = pl /\
    _certificate ca =
      sign_builder
        {| b_subject := attributes_in_order unit_name on None;
           b_issuer := iss;
           b_public_key := public_key (_private_key ca);
           b_not_valid_before := DEFAULT_NOT_BEFORE;
           b_not_valid_after := DEFAULT_EXPIRY;
           b_serial_number := serial;
           b_extensions := ca_extensions (public_key (_private_key ca)) pl aki |}
        sign_key SHA256 /\
    match parent with
    | None =>
        sign_key = _private_key ca /\
        iss = attributes_in_order unit_name on None /\ aki = None
    | Some p =>
        sign_key = _private_key p /\
        iss = subject (_certificate p) /\
        exists ski crit,
          get_extension_for_class as_ski (extensions (_certificate p))
            = Ok (ski, crit) /\
          aki = Some (from_issuer_subject_key_identifier ski)
    end.
Proof.
  destruct (CA_init_unfold parent pl on oun kt e)
    as (key & e1 & u & e2 & _ & _ & ->).
  destruct parent as [p|].
  - destruct (get_extension_for_class as_ski (extensions (_certificate p)))
      as [[ski crit]|x] eqn:Hg; [|discriminate].
    destruct (pl <? 0); [discriminate|]. intros [= <- _].
    cbn [parent_cert _path_length _certificate _private_key].
    eexists u, _, _, _, _. repeat split. eauto.
  - destruct (pl <? 0); [discriminate|]. intros [= <- _].
    cbn [parent_cert _path_length _certificate _private_key].
    eexists u, _, _, _, _. repeat split.
Qed.

(** The constructor returns only with a path length that is not
    negative. *)
Lemma CA_init_nonnegative parent pl on oun kt e ca e' :
  CA_init parent pl on oun kt e = Ok (ca, e') -> 0 <= pl.
Proof.
  destruct (CA_init_unfold parent pl on oun kt e)
    as (key & e1 & u & e2 & _ & _ & ->).
  destruct (match parent with Some _ => _ | None => _ end) as [[[sk iss] aki]|x];
    [|discriminate].
  destruct (Z.ltb_spec pl 0); [discriminate|]. intros _. assumption.
Qed.

(** [CA(...)] returns whenever the path length is not negative and the
    parent, if any, has a subject key identifier to derive the authority
    key identifier from. *)
Lemma CA_init_Ok parent pl on oun kt e :
  0 <= pl ->
  match parent with
  | Some p => has_subject_key_identifier p
  | None => True
  end ->
  exists ca e', CA_init parent pl on oun kt e = Ok (ca, e').
Proof.
  intros Hpl Hp.
  destruct (CA_init_unfold parent pl on oun kt e)
    as (key & e1 & u & e2 & _ & _ & ->).
  destruct (Z.ltb_spec pl 0); [lia|].
  destruct parent as [p|].
  - destruct (has_ski_lookup Hp) as (ski & crit & ->). eauto.
  - eauto.
Qed.

(** [CA(...)] with a parent that lacks the extension raises
    [ExtensionNotFound]. *)
Lemma CA_init_missing_ski p pl on oun kt e :
  ~ has_subject_key_identifier p ->
  CA_init (Some p) pl on oun kt e = Err ExtensionNotFound.
Proof.
  intros Hp.
  destruct (CA_init_unfold (Some p) pl on oun kt e)
    as (key & e1 & u & e2 & _ & _ & ->).
  now rewrite (missing_ski_lookup Hp).
Qed.

(** [CA(...)] with a negative path length raises the type error of
    [x509.BasicConstraints], unless the parent lacks the extension. *)
Lemma CA_init_negative parent pl on oun kt e :
  pl < 0 ->
  match parent with
  | Some p => has_subject_key_identifier p
  | None => True
  end ->
  CA_init parent pl on oun kt e = Err negative_path_length.
Proof.
  intros Hpl Hp.
  destruct (CA_init_unfold parent pl on oun kt e)
    as (key & e1 & u & e2 & _ & _ & ->).
  destruct (Z.ltb_spec pl 0); [|lia].
  destruct parent as [p|].
  - now destruct (has_ski_lookup Hp) as (ski & crit & ->).
  - reflexivity.
Qed.

(** Every CA the constructor returns has a subject key identifier of its
    own, derived from its public key. *)
Lemma CA_init_has_ski parent pl on oun kt e ca e' :
  CA_init parent pl on oun kt e = Ok (ca, e') ->
  has_subject_key_identifier ca.
Proof.
  intros H. apply CA_init_inv in H
    as (u & serial & sk & iss & aki & _ & _ & Hc & _).
  unfold has_subject_key_identifier. rewrite Hc. cbn. discriminate.
Qed.

Lemma CA_init_cases parent pl on oun kt e :
  (exists ca e', CA_init parent pl on oun kt e = Ok (ca, e')) \/
  CA_init parent pl on oun kt e = Err ExtensionNotFound \/
  (pl < 0 /\ CA_init parent pl on oun kt e = Err negative_path_length).
Proof.
  assert (Hp : match parent with
               | Some p => has_subject_key_identifier p \/
                           ~ has_subject_key_identifier p
               | None => True
               end).
  { destruct parent as [p|]; [|exact I].
    unfold has_subject_key_identifier.
    destruct (extensions_of_class as_ski (extensions (_certificate p)));
      [right; intros H; now apply H|left; discriminate]. }
  destruct parent as [p|].
  - destruct Hp as [Hs|Hn].
    + destruct (Z.lt_ge_cases pl 0).
      * right; right. split; [assumption|]. now apply CA_init_negative.
      * left. now apply CA_init_Ok.
    + right; left. now apply CA_init_missing_ski.
  - destruct (Z.lt_ge_cases pl 0).
    + right; right. split; [assumption|]. now apply CA_init_negative.
    + left. now apply CA_init_Ok.
Qed.

Lemma create_child_ca_zero self kt e :
  _path_length self = 0 ->
  create_child_ca self kt e = Err path_length_exhausted.
Proof. unfold create_child_ca. intros ->. reflexivity. Qed.

Lemma create_child_ca_nonzero self kt e :
  _path_length self <> 0 ->
  create_child_ca self kt e =
    CA_init (Some self) (_path_length self - 1) None None kt e.
Proof.
  unfold create_child_ca. intros H.
  destruct (Z.eqb_spec (_path_length self) 0); [contradiction|reflexivity].
Qed.


Lemma create_child_ca_inv self kt e child e' :
  create_child_ca self kt e = Ok (child, e') ->
  0 < _path_length self /\
  parent_cert child = Some self /\
  _path_length child = _path_length self - 1.
Proof.
  intros H. destruct (Z.eq_dec (_path_length self) 0) as [Hz|Hn].
  - rewrite create_child_ca_zero in H by assumption. discriminate.
  - rewrite create_child_ca_nonzero in H by assumption.
    pose proof (CA_init_nonnegative _ _ _ _ _ _ H) as Hpos.
    apply CA_init_inv in H as (u & serial & sk & iss & aki & Hp & Hl & _).
    repeat split; [lia|assumption|assumption].
Qed.


Lemma create_child_ca_error self kt e x :
  create_child_ca self kt e = Err x ->
  (x = path_length_exhausted /\ _path_length self = 0) \/
  (x = ExtensionNotFound /\ _path_length self <> 0 /\
   ~ has_subject_key_identifier self) \/
  (x = negative_path_length /\ _path_length self < 0 /\
   has_subject_key_identifier self).
Proof.
  intros H. destruct (Z.eq_dec (_path_length self) 0) as [Hz|Hn].
  - rewrite create_child_ca_zero in H by assumption. injection H as <-. now left.
  - right. rewrite create_child_ca_nonzero in H by assumption.
    assert (Hd : has_subject_key_identifier self \/
                 ~ has_subject_key_identifier self).
    { unfold has_subject_key_identifier.
      destruct (extensions_of_class as_ski (extensions (_certificate self)));
        [right; intros Hx; now apply Hx|left; discriminate]. }
    destruct Hd as [Hs|Hno].
    + right. destruct (Z.lt_ge_cases (_path_length self - 1) 0) as [Hneg|Hpos].
      * rewrite (@CA_init_negative (Some self) _ None None kt e Hneg Hs) in H.
        injection H as <-. repeat split; [lia|exact Hs].
      * destruct (@CA_init_Ok (Some self) (_path_length self - 1) None None
                    kt e Hpos Hs) as (ca & e' & Hok).
        congruence.
    + left. rewrite (CA_init_missing_ski _ _ _ _ _ Hno) in H.
      injection H as <-. now repeat split.
Qed.

(** *** Leaf issuance *)

Lemma _identity_string_to_x509_error o x :
  _identity_string_to_x509 o = Err x ->
  x = TypeError "identities must be str" \/ x = IDNAError \/
  x = UnicodeDecodeError \/ x = rfc822_invalid \/
  x = rfc822_not_ascii.
Proof.
  unfold _identity_string_to_x509, decode_ascii, RFC822Name_new.
  destruct o as [s| | |]; try (intros [= <-]; now left).
  destruct (str_contains "@" s).
  - destruct (rfc822_ascii s).
    + destruct (rfc822_address_only s); [discriminate|].
      intros [= <-]. now right; right; right; left.
    + intros [= <-]. now right; right; right; right.
  - destruct (ip_address s); [discriminate|].
    destruct (ip_network s); [discriminate|].
    match goal with
    | |- match ?enc with _ => _ end = _ -> _ => destruct enc as [bs|]
    end.
    + destruct (forallb is_ascii_byte bs); [discriminate|].
      intros [= <-]. now right; right; left.
    + intros [= <-]. now right; left.
Qed.

Lemma identities_to_x509_error ids x :
  identities_to_x509 ids = Err x ->
  x = TypeError "identities must be str" \/ x = IDNAError \/
  x = UnicodeDecodeError \/ x = rfc822_invalid \/
  x = rfc822_not_ascii.
Proof.
  induction ids as [|o rest IH]; cbn; [discriminate|].
  destruct (_identity_string_to_x509 o) eqn:Ho.
  - destruct (identities_to_x509 rest); [discriminate|].
    intros [= <-]. now apply IH.
  - intros [= <-]. exact (_identity_string_to_x509_error _ Ho).
Qed.

Lemma guard_false_iff {A : Type} (ids : list A) (cn : option string) :
  is_empty ids && is_None cn = false <-> ~ (ids = [] /\ cn = None).
Proof.
  destruct ids, cn; cbn; split; intros H; try reflexivity; try discriminate;
    try (intros [H1 H2]; discriminate).
  exfalso. now apply H.
Qed.

Lemma issue_cert_sign_guard self on oun nb na kt e :
  issue_cert_sign self [] None on oun nb na kt e = Err no_identity.
Proof. reflexivity. Qed.

(** [issue_cert] past its guard, check by check. *)
Lemma issue_cert_sign_unfold self ids cn on oun nb na kt e :
  ~ (ids = [] /\ cn = None) ->
  exists key e1 u e2,
    _generate_key kt e = Ok (key, e1) /\
    unit_name_or_random "Testing cert #" oun e1 = Ok (u, e2) /\
    issue_cert_sign self ids cn on oun nb na kt e
    = match get_extension_for_class as_ski (extensions (_certificate self)) with
      | Err x => Err x
      | Ok (ski, _) =>
          match _name u on cn with
          | Err x => Err x
          | Ok name =>
              match _cert_builder_common name (subject (_certificate self))
                      (public_key key) na nb e2 with
              | Err x => Err x
              | Ok (common, e3) =>
                  match identities_to_x509 ids with
                  | Err x => Err x
                  | Ok san =>
                      Ok ((key,
                           sign_builder
                             (add_extension
                                (add_extension
                                   (add_extension
                                      (add_extension
                                         (add_extension common
                                            (ExtBasicConstraints
                                               (mkBasicConstraints false None))
                                            true)
                                         (ExtAuthorityKeyIdentifier
                                            (from_issuer_subject_key_identifier
                                               ski)) false)
                                      (ExtSubjectAlternativeName san) true)
                                   (ExtKeyUsage leaf_key_usage) true)
                                (ExtExtendedKeyUsage
                                   [CLIENT_AUTH; SERVER_AUTH; CODE_SIGNING])
                                true)
                             (_private_key self) SHA256), e3)
                  end
              end
          end
      end.
Proof.
  intros Hg. apply guard_false_iff in Hg.
  destruct (_generate_key_Ok kt e) as (key & e1 & Hk).
  destruct (unit_name_or_random_Ok "Testing cert #" oun e1) as (u & e2 & Hu).
  exists key, e1, u, e2. split; [exact Hk|]. split; [exact Hu|].
  unfold issue_cert_sign. rewrite Hg, (bind_Ok _ _ _ Hk).
  unfold bind at 1. unfold lift at 1.
  destruct (get_extension_for_class as_ski (extensions (_certificate self)))
    as [[ski crit]|x]; [|reflexivity].
  rewrite (bind_Ok _ _ _ Hu).
  unfold bind at 1. unfold lift at 1.
  destruct (_name u on cn) as [name|x]; [|reflexivity].
  unfold bind at 1.
  destruct (_cert_builder_common name (subject (_certificate self))
              (public_key key) na nb e2) as [[common e3]|x]; [|reflexivity].
  unfold bind, lift, ret. cbn [BasicConstraints_new].
  destruct (identities_to_x509 ids); reflexivity.
Qed.

(** The key and certificate of a successful [issue_cert], field by
    field. *)
Lemma issue_cert_sign_inv self ids cn on oun nb na kt e key cert e' :
  issue_cert_sign self ids cn on oun nb na kt e = Ok ((key, cert), e') ->
  ~ (ids = [] /\ cn = None) /\
  exists ski crit unit_name serial san,
    get_extension_for_class as_ski (extensions (_certificate self))
      = Ok (ski, crit) /\
    identities_to_x509 ids = Ok san /\
    cert =
      sign_builder
        (leaf_builder (attributes_in_order unit_name on cn)
           (subject (_certificate self)) (public_key key) nb na serial
           (from_issuer_subject_key_identifier ski) san)
        (_private_key self) SHA256.
Proof.
  intros H.
  assert (Hg : ~ (ids = [] /\ cn = None)).
  { intros [-> ->]. rewrite issue_cert_sign_guard in H. discriminate. }
  split; [exact Hg|].
  destruct (issue_cert_sign_unfold self on oun nb na kt e Hg)
    as (k & e1 & u & e2 & _ & _ & Heq).
  rewrite Heq in H. clear Heq.
  destruct (get_extension_for_class as_ski (extensions (_certificate self)))
    as [[ski crit]|x]; [|discriminate].
  rewrite _name_result in H.
  destruct (common_name_ok cn); [|discriminate].
  destruct (_cert_builder_common _ _ _ _ _ _) as [[common e3]|x] eqn:Hc;
    [|discriminate].
  apply _cert_builder_common_inv in Hc as (_ & serial & ->).
  destruct (identities_to_x509 ids) as [san|x]; [|discriminate].
  injection H as <- <- _.
  exists ski, crit, u, serial, san. repeat split.
Qed.


Lemma issue_cert_sign_Ok self ids cn on oun nb na kt e san :
  ~ (ids = [] /\ cn = None) ->
  has_subject_key_identifier self ->
  common_name_ok cn = true ->
  window_of nb na = true ->
  identities_to_x509 ids = Ok san ->
  exists key cert e',
    issue_cert_sign self ids cn on oun nb na kt e = Ok ((key, cert), e').
Proof.
  intros Hg Hs Hcn Hw Hi.
  destruct (issue_cert_sign_unfold self on oun nb na kt e Hg)
    as (k & e1 & u & e2 & _ & _ & ->).
  destruct (has_ski_lookup Hs) as (ski & crit & ->).
  rewrite _name_result, Hcn.
  destruct (_cert_builder_common_Ok (attributes_in_order u on cn)
              (subject (_certificate self)) (public_key k) na nb e2 Hw)
    as (serial & e3 & ->).
  rewrite Hi. eauto.
Qed.

Lemma issue_cert_sign_error self ids cn on oun nb na kt e x :
  issue_cert_sign self ids cn on oun nb na kt e = Err x ->
  (x = no_identity /\ ids = [] /\ cn = None) \/
  (x <> no_identity /\ ~ (ids = [] /\ cn = None)).
Proof.
  intros H.
  destruct (is_empty ids && is_None cn) eqn:Hg.
  - left. destruct ids, cn; try discriminate.
    rewrite issue_cert_sign_guard in H. injection H as <-. now repeat split.
  - right. apply guard_false_iff in Hg. split; [|exact Hg].
    destruct (issue_cert_sign_unfold self on oun nb na kt e Hg)
      as (k & e1 & u & e2 & _ & _ & Heq).
    rewrite Heq in H. clear Heq.
    destruct (get_extension_for_class as_ski (extensions (_certificate self)))
      as [[ski crit]|y] eqn:Hl.
    + rewrite _name_result in H.
      destruct (common_name_ok cn); [|injection H as <-; discriminate].
      destruct (_cert_builder_common _ _ _ _ _ _) as [[common e3]|y] eqn:Hc.
      * destruct (identities_to_x509 ids) as [san|y] eqn:Hi; [discriminate|].
        injection H as <-.
        destruct (identities_to_x509_error _ Hi) as [->|[->|[->|[->| ->]]]];
          discriminate.
      * injection H as <-.
        apply _cert_builder_common_error in Hc as (_ & [->|[->| ->]]);
          discriminate.
    + injection H as <-. unfold get_extension_for_class in Hl.
      destruct (extensions_of_class as_ski (extensions (_certificate self)));
        [|discriminate].
      injection Hl as <-. discriminate.
Qed.

(** *** The distinguished-name builder *)

(** C8 (amended): [_name] is a function of its three arguments.  It
    fails with a value error when a common name is supplied that is empty or
    longer than 64 bytes.  Otherwise the organization attribute is the
    supplied organization name when one is supplied and is not the empty
    string, and the default ["trustme v" ++ __version__] when none is
    supplied or the empty string is; the unit attribute is the unit name; the
    common-name attribute is present exactly when a common name is supplied,
    with that value; and the attributes come in the order Organization,
    Organizational Unit, [Common Name]. *)
Theorem _name_attributes (name : string) (on cn : option string) :
  (common_name_ok cn = false ->
   exists msg, _name name on cn = Err (ValueError msg)) /\
  (common_name_ok cn = true ->
   exists n,
     _name name on cn = Ok n /\
     (forall o, on = Some o -> o <> "" ->
        values_for_oid ORGANIZATION_NAME n = [o]) /\
     (on = None \/ on = Some "" ->
        values_for_oid ORGANIZATION_NAME n = [default_organization]) /\
     values_for_oid ORGANIZATIONAL_UNIT_NAME n = [name] /\
     values_for_oid COMMON_NAME n
       = match cn with Some c => [c] | None => [] end /\
     (In COMMON_NAME (map attr_oid n) <-> cn <> None) /\
     map attr_oid n
       = [ORGANIZATION_NAME; ORGANIZATIONAL_UNIT_NAME]
         ++ match cn with Some _ => [COMMON_NAME] | None => [] end).
Proof.
  rewrite _name_result. split.
  - intros ->. eauto.
  - intros ->. exists (attributes_in_order name on cn).
    split; [reflexivity|]. unfold attributes_in_order. repeat split.
    + intros o -> Ho. destruct o as [|a o]; [congruence|].
      destruct cn; reflexivity.
    + intros [-> | ->]; destruct cn; reflexivity.
    + destruct cn; reflexivity.
    + destruct cn; reflexivity.
    + destruct cn; cbn.
      * intros _. discriminate.
      * intros [H|[H|[]]]; discriminate H.
    + destruct cn; cbn.
      * intros _. right; right; now left.
      * intros H. now elim H.
    + destruct cn; reflexivity.
Qed.

(** *** The identity classifier *)

Lemma startswith_wildcard s :
  startswith s "*." = true -> s = ("*." ++ str_drop 2 s)%string.
Proof.
  destruct s as [|a [|b rest]]; cbn [startswith]; try discriminate.
  - destruct (Ascii.eqb a "*"); discriminate.
  - destruct (Ascii.eqb_spec a "*") as [->|]; [|discriminate].
    destruct (Ascii.eqb_spec b ".") as [->|]; [|discriminate]. reflexivity.
Qed.

(** C2 (amended): every rule of the classifier's ordered rule list gives
    the result [_identity_string_to_x509] computes, so the result is a
    function of the input alone: a non-string gives the type error; a string
    with '@' is handed as it is to the email-name constructor, no address,
    network or DNS parsing being tried, and is an email name when that
    constructor takes it and the constructor's value error when it does not;
    a single address is an IP address, whatever the network parser would say;
    a network is an IP network; anything else is a DNS name, the wildcard
    prefix kept apart from the IDNA encoding of the remainder.  The IDNA
    encoder producing ASCII, every input falls under a rule. *)
Theorem identity_classification :
  (forall o r, classifies o r -> _identity_string_to_x509 o = r) /\
  (forall s, str_contains "@" s = true ->
             _identity_string_to_x509 (PyStr s) = RFC822Name_new s) /\
  ((forall s encoded, idna_encode s = Some encoded ->
                      forallb is_ascii_byte encoded = true) ->
   forall o, classifies o (_identity_string_to_x509 o)).
Proof.
  split; [|split].
  - intros o r H. destruct H; unfold _identity_string_to_x509, RFC822Name_new.
    + destruct o; [discriminate|reflexivity..].
    + now rewrite H, H0, H1.
    + now rewrite H, H0.
    + now rewrite H, H0, H1.
    + now rewrite H, H0.
    + now rewrite H, H0, H1.
    + rewrite H, H0, H1. cbn [startswith Ascii.eqb Bool.eqb append].
      cbn [str_drop]. rewrite H2. cbn [option_map].
      unfold decode_ascii, wildcard_prefix.
      replace (forallb is_ascii_byte (list_byte_of_string "*." ++ encoded))
        with true by (cbn; now rewrite H3).
      reflexivity.
    + rewrite H, H0, H1, H2, H3. unfold decode_ascii. now rewrite H4.
    + rewrite H, H0, H1. cbn [startswith Ascii.eqb Bool.eqb append].
      cbn [str_drop]. now rewrite H2.
    + now rewrite H, H0, H1, H2, H3.
  - intros s H. unfold _identity_string_to_x509. now rewrite H.
  - intros Hascii o. destruct o as [s|b|z|]; try (now constructor).
    unfold _identity_string_to_x509.
    destruct (str_contains "@" s) eqn:Hat.
    { unfold RFC822Name_new. destruct (rfc822_ascii s) eqn:Ha.
      - destruct (rfc822_address_only s) eqn:Hp; now constructor.
      - now constructor. }
    destruct (ip_address s) as [a|] eqn:Ha; [now constructor|].
    destruct (ip_network s) as [n|] eqn:Hn; [now constructor|].
    destruct (startswith s "*.") eqn:Hw.
    + pose proof (startswith_wildcard _ Hw) as Hs.
      destruct (idna_encode (str_drop 2 s)) as [bs|] eqn:He; cbn [option_map].
      * pose proof (Hascii _ _ He) as Hb.
        unfold decode_ascii, wildcard_prefix.
        replace (forallb is_ascii_byte (list_byte_of_string "*." ++ bs))
          with true by (cbn; now rewrite Hb).
        rewrite Hs at 1.
        replace (string_of_list_byte (list_byte_of_string "*." ++ bs))
          with ("*." ++ string_of_list_byte bs)%string by reflexivity.
        apply classify_wildcard_dns; try assumption; now rewrite <- Hs.
      * rewrite Hs at 1.
        apply classify_wildcard_invalid; try assumption; now rewrite <- Hs.
    + destruct (idna_encode s) as [bs|] eqn:He.
      * pose proof (Hascii _ _ He) as Hb. unfold decode_ascii. rewrite Hb.
        now apply classify_dns.
      * now apply classify_dns_invalid.
Qed.

(** *** CA construction *)

(** C5: a call of the constructor without a parent and with a path length
    that is not negative always returns, for either key type; and the
    certificate of every CA the constructor returns
    carries the subject key identifier of the CA's own public key and, without
    a parent, is self-signed (issuer name = subject name, signature made with
    the CA's own key) and has no authority-key-identifier extension, while
    with a parent its issuer name is the parent certificate's subject name,
    its signature is made with the parent's private key, and its one
    authority-key-identifier extension is the one derived from the
    subject-key-identifier extension of the parent's certificate. *)
Theorem CA_init_issuer_and_signature parent pl on oun kt e :
  (parent = None -> 0 <= pl ->
   exists ca e', CA_init parent pl on oun kt e = Ok (ca, e')) /\
  forall ca e',
    CA_init parent pl on oun kt e = Ok (ca, e') ->
    let cert := _certificate ca in
    parent_cert ca = parent /\
    b_public_key (tbs cert) = public_key (_private_key ca) /\
    signature_hash_algorithm cert = SHA256 /\
    extensions_of_class as_ski (extensions cert)
      = [(ski_from_public_key (public_key (_private_key ca)), false)] /\
    match parent with
    | None =>
        issuer cert = subject cert /\
        signature cert = sign (tbs cert) (_private_key ca) SHA256 /\
        extensions_of_class as_aki (extensions cert) = []
    | Some p =>
        issuer cert = subject (_certificate p) /\
        signature cert = sign (tbs cert) (_private_key p) SHA256 /\
        exists ski crit,
          get_extension_for_class as_ski (extensions (_certificate p))
            = Ok (ski, crit) /\
          extensions_of_class as_aki (extensions cert)
            = [(from_issuer_subject_key_identifier ski, false)] /\
          key_identifier (from_issuer_subject_key_identifier ski)
            = Some (digest ski)
    end.
Proof.
  split.
  - intros -> Hpl. now apply CA_init_Ok.
  - intros ca e' H. cbv zeta.
    apply CA_init_inv in H
      as (u & serial & sk & iss & aki & Hp & Hl & Hc & Hrest).
    rewrite Hc. unfold issuer, subject, extensions.
    cbn [sign_builder tbs signature signature_hash_algorithm b_issuer b_subject
         b_extensions b_public_key].
    split; [exact Hp|]. split; [reflexivity|]. split; [reflexivity|].
    split; [destruct aki; reflexivity|].
    destruct parent as [p|].
    + destruct Hrest as (-> & -> & ski & crit & Hg & ->).
      split; [reflexivity|]. split; [reflexivity|].
      exists ski, crit. now repeat split.
    + destruct Hrest as (-> & -> & ->). now repeat split.
Qed.

(** *** Child CAs *)



(** *** Import *)

(** C7: [from_pem] returns whenever both encodings load, and the CA it
    returns has no parent, holds the loaded certificate and key, and has
    path length 9, the constructor's default, whatever the loaded
    certificate says; [create_child_ca] on it therefore never raises the
    domain error, and a child it returns has path length 8. *)
Theorem from_pem_declared_path_length cert_bytes key_bytes e :
  (forall c k,
     load_pem_x509_certificate cert_bytes = Ok c ->
     load_pem_private_key key_bytes = Ok k ->
     exists ca e', from_pem cert_bytes key_bytes e = Ok (ca, e')) /\
  forall ca e',
    from_pem cert_bytes key_bytes e = Ok (ca, e') ->
    parent_cert ca = None /\
    _path_length ca = 9 /\
    load_pem_x509_certificate cert_bytes = Ok (_certificate ca) /\
    load_pem_private_key key_bytes = Ok (_private_key ca) /\
    forall kt e2,
      create_child_ca ca kt e2 <> Err path_length_exhausted /\
      forall child e3,
        create_child_ca ca kt e2 = Ok (child, e3) -> _path_length child = 8.
Proof.
  split.
  - intros c k Hc Hk. unfold from_pem.
    destruct (@CA_init_Ok None 9 None None ECDSA e ltac:(lia) I)
      as (ca0 & e1 & H0).
    rewrite (bind_Ok _ _ _ H0). unfold bind, lift. rewrite Hc, Hk.
    unfold ret. eauto.
  - intros ca e' H. unfold from_pem in H.
    apply bind_Ok_inv in H as (ca0 & e1 & H0 & H).
    apply bind_Ok_inv in H as (c & e2 & Hc & H).
    apply bind_Ok_inv in H as (k & e3 & Hk & H).
    apply lift_Ok_inv in Hc as [Hc _]. apply lift_Ok_inv in Hk as [Hk _].
    unfold ret in H. injection H as <- _.
    apply CA_init_inv in H0 as (? & ? & ? & ? & ? & _ & Hl & _).
    cbn [parent_cert _path_length _certificate _private_key].
    split; [reflexivity|]. split; [exact Hl|].
    split; [exact Hc|]. split; [exact Hk|].
    intros kt e4. split.
    + intros Hx.
      apply create_child_ca_error in Hx as [[_ Hz]|[[Hx _]|[Hx _]]].
      * cbn in Hz. lia.
      * discriminate Hx.
      * discriminate Hx.
    + intros child e5 Hch. apply create_child_ca_inv in Hch as (_ & _ & Hl').
      rewrite Hl'. cbn. lia.
Qed.

(** *** Issued leaf certificates *)

Lemma issue_cert_unfold self ids cn on oun nb na kt e :
  issue_cert self ids cn on oun nb na kt e =
    match issue_cert_sign self ids cn on oun nb na kt e with
    | Ok ((key, cert), e') =>
        Ok (LeafCert_init (private_bytes key) (public_bytes cert)
              (map (fun c => public_bytes (_certificate c))
                 (chain_authorities self)), e')
    | Err x => Err x
    end.
Proof.
  unfold issue_cert, bind.
  destruct (issue_cert_sign self ids cn on oun nb na kt e) as [[[key cert] e']|x];
    [|reflexivity].
  unfold ret. now rewrite collect_chain_walk.
Qed.

Lemma issue_cert_inv self ids cn on oun nb na kt e leaf e' :
  issue_cert self ids cn on oun nb na kt e = Ok (leaf, e') ->
  exists key cert,
    issue_cert_sign self ids cn on oun nb na kt e = Ok ((key, cert), e') /\
    leaf = LeafCert_init (private_bytes key) (public_bytes cert)
             (map (fun c => public_bytes (_certificate c))
                (chain_authorities self)).
Proof.
  rewrite issue_cert_unfold.
  destruct (issue_cert_sign self ids cn on oun nb na kt e) as [[[key cert] e1]|x];
    [|discriminate].
  intros [= <- <-]. eauto.
Qed.

Lemma leaf_extensions_san pk aki san :
  extensions_of_class as_san (leaf_extensions pk aki san) = [(san, true)].
Proof. reflexivity. Qed.

(** C4 (amended): [issue_cert] fails with the validation error of its own
    guard exactly when the identities are empty and no common name is given.
    Past the guard, on a CA whose certificate carries a subject key
    identifier, it still fails with a value error of the x509 constructors
    when the common name is empty or longer than 64 bytes and, the common
    name being admissible, when the validity window is not one the
    certificate builder takes (a date before 1950, or [not_after] before
    [not_before]).  On a CA that the constructor returned and with an
    admissible validity window, [issue_cert("example.com")] (the name being
    neither an address nor a network and IDNA-encoding to itself) returns a
    leaf whose certificate has one subject-alternative-name extension, with
    the one entry [DNSName "example.com"]. *)
Theorem issue_cert_requires_identity :
  (forall self ids cn on oun nb na kt e,
     issue_cert self ids cn on oun nb na kt e = Err no_identity <->
     ids = [] /\ cn = None) /\
  (forall self ids cn on oun nb na kt e,
     has_subject_key_identifier self ->
     common_name_ok cn = false ->
     exists msg,
       issue_cert self ids cn on oun nb na kt e = Err (ValueError msg) /\
       ValueError msg <> no_identity) /\
  (forall self ids cn on oun nb na kt e,
     ~ (ids = [] /\ cn = None) ->
     has_subject_key_identifier self ->
     common_name_ok cn = true ->
     window_of nb na = false ->
     exists msg,
       issue_cert self ids cn on oun nb na kt e = Err (ValueError msg) /\
       ValueError msg <> no_identity) /\
  (forall parent pl on0 oun0 kt0 e0 self e1 on oun nb na kt e,
     CA_init parent pl on0 oun0 kt0 e0 = Ok (self, e1) ->
     window_of nb na = true ->
     ip_address "example.com" = None ->
     ip_network "example.com" = None ->
     idna_encode "example.com" = Some (list_byte_of_string "example.com") ->
     exists key cert e',
       issue_cert_sign self [PyStr "example.com"] None on oun nb na kt e
         = Ok ((key, cert), e') /\
       issue_cert self [PyStr "example.com"] None on oun nb na kt e
         = Ok (LeafCert_init (private_bytes key) (public_bytes cert)
                 (collect_chain self []), e') /\
       extensions_of_class as_san (extensions cert)
         = [([DNSName "example.com"], true)]).
Proof.
  split; [|split; [|split]].
  - intros self ids cn on oun nb na kt e. rewrite issue_cert_unfold. split.
    + destruct (issue_cert_sign self ids cn on oun nb na kt e)
        as [[[key cert] e']|x] eqn:H; [discriminate|].
      intros [= ->].
      apply issue_cert_sign_error in H as [(_ & Hi & Hc)|[Hx _]];
        [now split|now elim Hx].
    + intros [-> ->]. now rewrite issue_cert_sign_guard.
  - intros self ids cn on oun nb na kt e Hs Hcn.
    assert (Hg : ~ (ids = [] /\ cn = None))
      by (intros [_ ->]; discriminate Hcn).
    rewrite issue_cert_unfold.
    destruct (issue_cert_sign_unfold self on oun nb na kt e Hg)
      as (k & e1 & u & e2 & _ & _ & ->).
    destruct (has_ski_lookup Hs) as (ski & crit & ->).
    rewrite _name_result, Hcn. eexists. split; [reflexivity|discriminate].
  - intros self ids cn on oun nb na kt e Hg Hs Hcn Hw.
    rewrite issue_cert_unfold.
    destruct (issue_cert_sign_unfold self on oun nb na kt e Hg)
      as (k & e1 & u & e2 & _ & _ & ->).
    destruct (has_ski_lookup Hs) as (ski & crit & ->).
    rewrite _name_result, Hcn.
    destruct (_cert_builder_common _ _ _ _ _ _) as [[common e3]|x] eqn:Hc.
    + apply _cert_builder_common_inv in Hc as (Hok & _). congruence.
    + apply _cert_builder_common_error in Hc as (_ & [->|[->| ->]]);
        (eexists; split; [reflexivity|discriminate]).
  - intros parent pl on0 oun0 kt0 e0 self e1 on oun nb na kt e
           Hca Hw Ha Hn He.
    pose proof (CA_init_has_ski _ _ _ _ _ _ Hca) as Hs.
    assert (Hsan : identities_to_x509 [PyStr "example.com"]
                   = Ok [DNSName "example.com"]).
    { cbn [identities_to_x509]. unfold _identity_string_to_x509.
      change (str_contains "@" "example.com") with false. cbv iota.
      rewrite Ha, Hn.
      change (startswith "example.com" "*.") with false. cbv iota.
      rewrite He. reflexivity. }
    assert (Hg : ~ ([PyStr "example.com"] = [] /\ @None string = None))
      by (intros [Hx _]; discriminate Hx).
    destruct (issue_cert_sign_Ok on oun nb na kt e Hg Hs eq_refl Hw Hsan)
      as (key & cert & e' & H).
    exists key, cert, e'. split; [exact H|]. split.
    + unfold issue_cert. rewrite (bind_Ok _ _ _ H). reflexivity.
    + apply issue_cert_sign_inv in H
        as (_ & ski & crit & u & serial & san & _ & Hi & ->).
      rewrite Hsan in Hi. injection Hi as <-. reflexivity.
Qed.

(** C9: with no identities and a common name, the leaf certificate of
    every [issue_cert] call that returns has exactly one
    subject-alternative-name extension, marked critical, with no entries; and
    the call does return on every CA that the constructor returned, for a
    common name of 1 to 64 bytes and a validity window the certificate
    builder takes. *)
Theorem issue_cert_empty_san self cn on oun nb na kt e :
  (forall parent pl on0 oun0 kt0 e0 e1,
     CA_init parent pl on0 oun0 kt0 e0 = Ok (self, e1) ->
     common_name_length_ok cn = true ->
     window_of nb na = true ->
     exists leaf e',
       issue_cert self [] (Some cn) on oun nb na kt e = Ok (leaf, e')) /\
  forall leaf e',
    issue_cert self [] (Some cn) on oun nb na kt e = Ok (leaf, e') ->
    exists key cert,
      issue_cert_sign self [] (Some cn) on oun nb na kt e = Ok ((key, cert), e') /\
      hd_error (cert_chain_pems leaf) = Some (mkBlob (public_bytes cert)) /\
      extensions_of_class as_san (extensions cert) = [([], true)].
Proof.
  split.
  - intros parent pl on0 oun0 kt0 e0 e1 Hca Hcn Hw.
    pose proof (CA_init_has_ski _ _ _ _ _ _ Hca) as Hs.
    assert (Hg : ~ (@nil pyobj = [] /\ Some cn = None))
      by (intros [_ Hx]; discriminate Hx).
    destruct (issue_cert_sign_Ok on oun nb na kt e Hg Hs Hcn Hw eq_refl)
      as (key & cert & e' & H).
    rewrite issue_cert_unfold, H. eauto.
  - intros leaf e' H.
    apply issue_cert_inv in H as (key & cert & H & ->).
    exists key, cert. split; [exact H|]. split; [reflexivity|].
    apply issue_cert_sign_inv in H
      as (_ & ski & crit & u & serial & san & _ & Hi & ->).
    cbn in Hi. injection Hi as <-. reflexivity.
Qed.

(** *** The chain *)

Lemma chain_authorities_have_parents (ca : CA) :
  Forall (fun c => parent_cert c <> None) (chain_authorities ca).
Proof.
  induction ca as [k n c | p k n c IH] using CA_parent_ind; cbn.
  - constructor.
  - constructor; [discriminate|exact IH].
Qed.

Lemma root_of_has_no_parent (ca : CA) : parent_cert (root_of ca) = None.
Proof.
  induction ca as [k n c | p k n c IH] using CA_parent_ind; cbn;
    [reflexivity|exact IH].
Qed.

Lemma root_of_not_in_chain (ca : CA) : ~ In (root_of ca) (chain_authorities ca).
Proof.
  intros Hin.
  pose proof (chain_authorities_have_parents ca) as Hall.
  rewrite Forall_forall in Hall. apply (Hall _ Hin), root_of_has_no_parent.
Qed.

Lemma CA_init_extension_count parent pl on oun kt e ca e' :
  CA_init parent pl on oun kt e = Ok (ca, e') ->
  List.length (extensions (_certificate ca))
    = match parent with Some _ => 4%nat | None => 3%nat end.
Proof.
  intros H. apply CA_init_inv in H
    as (u & serial & sk & iss & aki & _ & _ & Hc & Hrest).
  rewrite Hc. cbn. destruct parent as [p|].
  - destruct Hrest as (_ & _ & ski & crit & _ & ->). reflexivity.
  - destruct Hrest as (_ & _ & ->). reflexivity.
Qed.

Lemma child_certificate_is_not_root's plr onr ounr ktr e0 root e1 self kt e child e' :
  CA_init None plr onr ounr ktr e0 = Ok (root, e1) ->
  create_child_ca self kt e = Ok (child, e') ->
  _certificate child <> _certificate root.
Proof.
  intros Hr Hc Heq.
  apply CA_init_extension_count in Hr.
  destruct (Z.eq_dec (_path_length self) 0) as [Hz|Hn].
  - rewrite create_child_ca_zero in Hc by assumption. discriminate.
  - rewrite create_child_ca_nonzero in Hc by assumption.
    apply CA_init_extension_count in Hc. rewrite Heq in Hc. congruence.
Qed.

(** C1: the chain of every leaf that [issue_cert] returns (the entries of
    [cert_chain_pems] after the leaf's own) is the PEM encoding of the
    certificates of the CAs met walking from the issuing CA up the parent
    references, each of which has a parent; the CA without a parent that the
    walk ends at is not among them.  Issued from the third level of a
    hierarchy root, intermediate, issuing CA, the chain has the 2 entries
    issuing CA's certificate, intermediate's certificate, in that order, and
    neither certificate is the root's; issued from a CA without a parent the
    chain is empty. *)
Theorem issue_cert_chain_collection :
  (forall self ids cn on oun nb na kt e leaf e',
     issue_cert self ids cn on oun nb na kt e = Ok (leaf, e') ->
     tl (cert_chain_pems leaf) = map cert_pem (chain_authorities self) /\
     Forall (fun c => parent_cert c <> None) (chain_authorities self) /\
     parent_cert (root_of self) = None /\
     ~ In (root_of self) (chain_authorities self)) /\
  (forall plr onr ounr ktr e0 root e1 kt1 e1' mid e2 kt2 e2' issuing e3
          ids cn on oun nb na kt e leaf e',
     CA_init None plr onr ounr ktr e0 = Ok (root, e1) ->
     create_child_ca root kt1 e1' = Ok (mid, e2) ->
     create_child_ca mid kt2 e2' = Ok (issuing, e3) ->
     issue_cert issuing ids cn on oun nb na kt e = Ok (leaf, e') ->
     tl (cert_chain_pems leaf) = [cert_pem issuing; cert_pem mid] /\
     List.length (tl (cert_chain_pems leaf)) = 2%nat /\
     _certificate issuing <> _certificate root /\
     _certificate mid <> _certificate root) /\
  (forall root ids cn on oun nb na kt e leaf e',
     parent_cert root = None ->
     issue_cert root ids cn on oun nb na kt e = Ok (leaf, e') ->
     tl (cert_chain_pems leaf) = [] /\
     List.length (tl (cert_chain_pems leaf)) = 0%nat).
Proof.
  assert (Hwalk : forall self ids cn on oun nb na kt e leaf e',
            issue_cert self ids cn on oun nb na kt e = Ok (leaf, e') ->
            tl (cert_chain_pems leaf) = map cert_pem (chain_authorities self)).
  { intros self ids cn on oun nb na kt e leaf e' H.
    apply issue_cert_inv in H as (key & cert & _ & ->).
    cbn [LeafCert_init cert_chain_pems app map tl].
    rewrite map_map. reflexivity. }
  split; [|split].
  - intros self ids cn on oun nb na kt e leaf e' H.
    split; [exact (Hwalk _ _ _ _ _ _ _ _ _ _ _ H)|].
    split; [apply chain_authorities_have_parents|].
    split; [apply root_of_has_no_parent|apply root_of_not_in_chain].
  - intros plr onr ounr ktr e0 root e1 kt1 e1' mid e2 kt2 e2' issuing e3
           ids cn on oun nb na kt e leaf e' Hr Hm Hi Hl.
    pose proof (Hwalk _ _ _ _ _ _ _ _ _ _ _ Hl) as Hc.
    pose proof (child_certificate_is_not_root's _ _ _ _ _ _ _ _ Hr Hi) as Hni.
    pose proof (child_certificate_is_not_root's _ _ _ _ _ _ _ _ Hr Hm) as Hnm.
    apply create_child_ca_inv in Hi as (_ & Hpi & _).
    apply create_child_ca_inv in Hm as (_ & Hpm & _).
    apply CA_init_inv in Hr as (? & ? & ? & ? & ? & Hpr & _).
    assert (Hchain : chain_authorities issuing = [issuing; mid]).
    { destruct issuing as [pi ki ni ci]. cbn in Hpi. subst pi.
      destruct mid as [pm km nm cm]. cbn in Hpm. subst pm.
      destruct root as [pr kr nr cr]. cbn in Hpr. subst pr. reflexivity. }
    rewrite Hc, Hchain. now repeat split.
  - intros root ids cn on oun nb na kt e leaf e' Hp Hl.
    rewrite (Hwalk _ _ _ _ _ _ _ _ _ _ _ Hl).
    destruct root as [pr kr nr cr]. cbn in Hp. subst pr. now split.
Qed.


End Properties.

(** ** The properties on the deterministic backend *)

Module Examples.
Import Stub.
#[local] Existing Instance prims.
#[local] Existing Instance backend.

Lemma encode_ascii_name_is_ascii (s : string) (encoded : bytes) :
  encode_ascii_name s = Some encoded -> forallb is_ascii_byte encoded = true.
Proof.
  unfold encode_ascii_name. destruct s as [|a s]; [discriminate|].
  destruct (forallb is_ascii_byte (list_byte_of_string (String a s))) eqn:H;
    [|discriminate].
  now intros [= <-].
Qed.

(** The chain of the leaf issued at the third level, and of the one issued
    by the root. *)
Lemma chain_of_third_level_leaf :
  tl (cert_chain_pems leaf) = [cert_pem issuing; cert_pem intermediate] /\
  List.length (tl (cert_chain_pems leaf)) = 2%nat /\
  _certificate issuing <> _certificate root /\
  _certificate intermediate <> _certificate root /\
  tl (cert_chain_pems root_leaf) = [] /\
  tl (cert_chain_pems leaf) = map cert_pem (chain_authorities issuing).
Proof.
  pose proof (@issue_cert_chain_collection prims backend) as (Hwalk & Hthree & Hroot).
  destruct (Hthree 9 None None ECDSA 0 root 3 ECDSA 3 intermediate 6 RSA 6
              issuing 9 [PyStr "example.com"] None None None None None ECDSA 9
              leaf 12 eq_refl eq_refl eq_refl eq_refl)
    as (H1 & H2 & H3 & H4).
  destruct (Hroot root [] (Some "legacy") None None None None ECDSA 3
              root_leaf 6 eq_refl eq_refl) as (H5 & _).
  destruct (Hwalk issuing [PyStr "example.com"] None None None None None ECDSA 9
              leaf 12 eq_refl) as (H6 & _).
  repeat split; assumption.
Defined.

Lemma classification_examples :
  _identity_string_to_x509 (PyStr "127.0.0.1")
    = Ok (IPAddress (inl ("127.0.0.1" : IPv4or6Address))) /\
  ip_network "127.0.0.1" = Some ("127.0.0.1/32" : IPv4or6Network) /\
  _identity_string_to_x509 (PyStr "10.0.0.0/8")
    = Ok (IPAddress (inr ("10.0.0.0/8" : IPv4or6Network))) /\
  _identity_string_to_x509 (PyStr "a@b.com") = Ok (RFC822Name "a@b.com") /\
  _identity_string_to_x509 (PyStr "@") = Err rfc822_invalid /\
  _identity_string_to_x509 (PyStr "10.0.0.1@") = RFC822Name_new "10.0.0.1@" /\
  _identity_string_to_x509 (PyStr "*.example.com")
    = Ok (DNSName "*.example.com") /\
  _identity_string_to_x509 (PyBytes [x61])
    = Err (TypeError "identities must be str") /\
  classifies (PyStr "*.") (_identity_string_to_x509 (PyStr "*.")).
Proof.
  pose proof (@identity_classification prims backend)
    as (Hrule & Hemail & Htotal).
  split; [apply Hrule; exact (classify_address "127.0.0.1" eq_refl eq_refl)|].
  split; [reflexivity|].
  split; [apply Hrule;
          exact (classify_network "10.0.0.0/8" eq_refl eq_refl eq_refl)|].
  split; [apply Hrule;
          exact (classify_email "a@b.com" eq_refl eq_refl eq_refl)|].
  split; [apply Hrule;
          exact (classify_email_refused "@" eq_refl eq_refl eq_refl)|].
  split; [exact (Hemail "10.0.0.1@" eq_refl)|].
  split; [apply Hrule;
          exact (classify_wildcard_dns "example.com" eq_refl eq_refl eq_refl
                   eq_refl eq_refl)|].
  split; [apply Hrule; exact (classify_not_str (PyBytes [x61]) eq_refl)|].
  apply Htotal. exact encode_ascii_name_is_ascii.
Defined.

(** A string with '@' that the email-name constructor refuses is not
    classified as an email name. *)
Lemma email_with_display_name_is_refused :
  str_contains "@" "foo <a@b.com>" = true /\
  _identity_string_to_x509 (PyStr "foo <a@b.com>")
    = Err (ValueError "Invalid rfc822name value") /\
  _identity_string_to_x509 (PyStr "foo <a@b.com>")
    <> Ok (RFC822Name "foo <a@b.com>").
Proof. repeat split. discriminate. Qed.

(** A root, a child of it, and the certificate each carries. *)
Lemma root_and_child_certificates :
  (exists ca e', CA_init None 9 None None RSA 0 = Ok (ca, e')) /\
  (issuer (_certificate root) = subject (_certificate root) /\
   signature (_certificate root)
     = sign (tbs (_certificate root)) (_private_key root) SHA256 /\
   extensions_of_class as_aki (extensions (_certificate root)) = []) /\
  (issuer (_certificate intermediate) = subject (_certificate root) /\
   signature (_certificate intermediate)
     = sign (tbs (_certificate intermediate)) (_private_key root) SHA256 /\
   exists ski crit,
     get_extension_for_class as_ski (extensions (_certificate root))
       = Ok (ski, crit) /\
     extensions_of_class as_aki (extensions (_certificate intermediate))
       = [(from_issuer_subject_key_identifier ski, false)] /\
     key_identifier (from_issuer_subject_key_identifier ski) = Some (digest ski)).
Proof.
  split; [exact (proj1 (@CA_init_issuer_and_signature prims backend None 9 None
                          None RSA 0)
                   eq_refl ltac:(discriminate))|].
  split.
  - exact (proj2 (proj2 (proj2 (proj2
             (proj2 (@CA_init_issuer_and_signature prims backend None 9 None None
                       ECDSA 0)
                root 3 eq_refl))))).
  - exact (proj2 (proj2 (proj2 (proj2
             (proj2 (@CA_init_issuer_and_signature prims backend (Some root) 8 None
                       None ECDSA 3)
                intermediate 6 eq_refl))))).
Defined.





Lemma imported_path_length :
  (exists ca e', from_pem [x01] [x01] 0 = Ok (ca, e')) /\
  parent_cert imported_with_ski = None /\
  _path_length imported_with_ski = 9 /\
  extensions_of_class
    (fun v => match v with ExtBasicConstraints b => Some b | _ => None end)
    (extensions (_certificate imported_with_ski))
    = [(mkBasicConstraints true (Some 0), true)] /\
  create_child_ca imported_with_ski ECDSA 3 <> Err path_length_exhausted /\
  (forall child e3,
     create_child_ca imported_with_ski ECDSA 3 = Ok (child, e3) ->
     _path_length child = 8).
Proof.
  destruct (@from_pem_declared_path_length prims backend [x01] [x01] 0) as (Hret & Hca).
  split; [exact (Hret (foreign_certificate true) 7 eq_refl eq_refl)|].
  destruct (Hca imported_with_ski 3 eq_refl) as (Hp & Hl & _ & _ & Hchild).
  split; [exact Hp|]. split; [exact Hl|]. split; [reflexivity|].
  exact (Hchild ECDSA 3).
Defined.

Lemma issue_cert_examples :
  issue_cert root [] None None None None None ECDSA 3 = Err no_identity /\
  (exists msg,
     issue_cert root [PyStr "example.com"] (Some "") None None None None ECDSA 3
       = Err (ValueError msg) /\
     ValueError msg <> no_identity) /\
  (exists msg,
     issue_cert root [PyStr "example.com"] None None None
       (Some (mkDatetime 2030 1 1)) (Some (mkDatetime 2020 1 1)) ECDSA 3
       = Err (ValueError msg) /\
     ValueError msg <> no_identity) /\
  exists key cert e',
    issue_cert_sign root [PyStr "example.com"] None None None None None ECDSA 3
      = Ok ((key, cert), e') /\
    issue_cert root [PyStr "example.com"] None None None None None ECDSA 3
      = Ok (LeafCert_init (private_bytes key) (public_bytes cert)
              (collect_chain root []), e') /\
    extensions_of_class as_san (extensions cert)
      = [([DNSName "example.com"], true)].
Proof.
  destruct (@issue_cert_requires_identity prims backend)
    as (Hiff & Hname & Hwindow & Hexample).
  assert (Hroot : has_subject_key_identifier root)
    by exact (@CA_init_has_ski prims backend None 9 None None ECDSA 0 root 3
                eq_refl).
  split.
  - apply (Hiff root [] None None None None None ECDSA 3). now split.
  - split.
    + exact (Hname root [PyStr "example.com"] (Some "") None None None None
               ECDSA 3 Hroot eq_refl).
    + split.
      * apply (Hwindow root [PyStr "example.com"] None None None
                 (Some (mkDatetime 2030 1 1)) (Some (mkDatetime 2020 1 1))
                 ECDSA 3); try reflexivity; [|exact Hroot].
        intros [Hx _]. discriminate Hx.
      * exact (Hexample None 9 None None ECDSA 0 root 3 None None None None
                 ECDSA 3 eq_refl eq_refl eq_refl eq_refl eq_refl).
Defined.

(** With an empty common name [issue_cert] fails with a value error
    although a common name is given. *)
Lemma empty_common_name_is_a_value_error :
  Some "" <> @None string /\
  exists msg,
    issue_cert root [] (Some "") None None None None ECDSA 3
      = Err (ValueError msg).
Proof. split; [discriminate|]. eexists. reflexivity. Qed.

Lemma common_name_only_leaf :
  (exists l e', issue_cert root [] (Some "legacy") None None None None ECDSA 3
                = Ok (l, e')) /\
  exists key cert,
    issue_cert_sign root [] (Some "legacy") None None None None ECDSA 3
      = Ok ((key, cert), 6) /\
    hd_error (cert_chain_pems root_leaf) = Some (mkBlob (public_bytes cert)) /\
    extensions_of_class as_san (extensions cert) = [([], true)].
Proof.
  destruct (@issue_cert_empty_san prims backend root "legacy" None None None None
              ECDSA 3)
    as (Hret & Hsan).
  split.
  - exact (Hret None 9 None None ECDSA 0 3 eq_refl eq_refl eq_refl).
  - exact (Hsan root_leaf 6 eq_refl).
Defined.


Lemma names_with_and_without_organization :
  (exists msg, _name "web" None (Some "") = Err (ValueError msg)) /\
  (exists n,
     _name "web" (Some "ACME") (Some "host") = Ok n /\
     values_for_oid ORGANIZATION_NAME n = ["ACME"] /\
     values_for_oid COMMON_NAME n = ["host"]) /\
  (exists n,
     _name "web" (Some "") None = Ok n /\
     values_for_oid ORGANIZATION_NAME n = [default_organization]).
Proof.
  destruct (@_name_attributes prims backend "web" None (Some ""))
    as (Hrefused & _).
  destruct (@_name_attributes prims backend "web" (Some "ACME") (Some "host"))
    as (_ & Hsupplied).
  destruct (@_name_attributes prims backend "web" (Some "") None)
    as (_ & Hempty).
  split; [exact (Hrefused eq_refl)|]. split.
  - destruct (Hsupplied eq_refl) as (n & Hn & Ho & _ & _ & Hc & _).
    exists n. split; [exact Hn|]. split; [|exact Hc].
    apply (Ho "ACME" eq_refl). discriminate.
  - destruct (Hempty eq_refl) as (n & Hn & _ & Hd & _).
    exists n. split; [exact Hn|]. apply Hd. now right.
Defined.

(** Supplied as the empty string, the organization name is not the
    attribute's value. *)
Lemma empty_organization_name_is_replaced :
  exists n,
    _name "web" (Some "") None = Ok n /\
    values_for_oid ORGANIZATION_NAME n = ["trustme v1.1.0"] /\
    values_for_oid ORGANIZATION_NAME n <> [""].
Proof. eexists. split; [reflexivity|]. split; [reflexivity|discriminate]. Qed.

End Examples.

(** ** Further properties of issuance and of the hierarchy *)

Section Hierarchy.
Context {P : Primitives} {B : Backend}.

(** *** Subject alternative names *)

Lemma identities_to_x509_Ok_iff ids san :
  identities_to_x509 ids = Ok san <->
  Forall2 (fun o g => _identity_string_to_x509 o = Ok g) ids san.
Proof.
  revert san. induction ids as [|o rest IH]; intros san; cbn.
  - split.
    + intros [= <-]. constructor.
    + intros H. inversion H. reflexivity.
  - split.
    + destruct (_identity_string_to_x509 o) as [g|x] eqn:Ho; [|discriminate].
      destruct (identities_to_x509 rest) as [gs|x] eqn:Hr; [|discriminate].
      intros [= <-]. constructor; [exact Ho|]. now apply IH.
    + intros H. inversion H as [|o' g rest' gs Ho Hrest]; subst.
      rewrite Ho. apply IH in Hrest. now rewrite Hrest.
Qed.

(** X1: the certificate of a leaf that [issue_cert] returns has exactly one
    subject-alternative-name extension, critical, with one entry per
    identity, in the order given, each the classification of its
    identity. *)
Theorem san_follows_identities self ids cn on oun nb na kt e key cert e' :
  issue_cert_sign self ids cn on oun nb na kt e = Ok ((key, cert), e') ->
  exists san,
    extensions_of_class as_san (extensions cert) = [(san, true)] /\
    Forall2 (fun o g => _identity_string_to_x509 o = Ok g) ids san /\
    List.length san = List.length ids.
Proof.
  intros H. apply issue_cert_sign_inv in H
    as (_ & ski & crit & u & serial & san & _ & Hi & ->).
  exists san. split; [reflexivity|].
  apply identities_to_x509_Ok_iff in Hi. split; [exact Hi|].
  symmetry. exact (Forall2_length Hi).
Qed.

(** X2: the list of identities is classified left to right and fails with
    the error of the first identity that does not classify, whatever comes
    after it. *)
Theorem identities_fail_at_first_error ids x :
  identities_to_x509 ids = Err x <->
  exists before o after gs,
    ids = before ++ o :: after /\
    Forall2 (fun o g => _identity_string_to_x509 o = Ok g) before gs /\
    _identity_string_to_x509 o = Err x.
Proof.
  induction ids as [|o rest IH]; cbn.
  - split; [discriminate|].
    intros (before & o & after & gs & Hids & _). now destruct before.
  - split.
    + destruct (_identity_string_to_x509 o) as [g|y] eqn:Ho.
      * destruct (identities_to_x509 rest) as [gs|y] eqn:Hr; [discriminate|].
        intros [= <-].
        destruct (proj1 IH eq_refl) as (before & o' & after & gs & -> & Hb & Ho').
        exists (o :: before), o', after, (g :: gs).
        repeat split; [now constructor|exact Ho'].
      * intros [= <-]. exists [], o, rest, []. repeat split; [constructor|exact Ho].
    + intros (before & o' & after & gs & Hids & Hb & Ho').
      destruct before as [|b before]; cbn in Hids; injection Hids as <- ->.
      * now rewrite Ho'.
      * inversion Hb as [|? g ? gs' Hg Hrest]; subst. rewrite Hg.
        assert (Hr : identities_to_x509 (before ++ o' :: after) = Err x)
          by (apply IH; eauto 8).
        now rewrite Hr.
Qed.


(** *** What an issued certificate contains *)

Lemma unit_name_or_random_value label oun e u e1 :
  unit_name_or_random label oun e = Ok (u, e1) ->
  u = match str_truthy oun with
      | Some supplied => supplied
      | None => (label ++ urlsafe_b64text (fst (os_urandom 12 e)))%string
      end.
Proof.
  unfold unit_name_or_random. destruct (str_truthy oun) as [supplied|].
  - unfold ret. now intros [= <- _].
  - unfold random_text, bind, draw, ret.
    destruct (os_urandom 12 e) as [r e2]. cbn. now intros [= <- _].
Qed.

(** X4: the certificate of an issued leaf names the issuing CA's
    certificate subject as issuer, is signed with the issuing CA's private
    key with SHA-256, certifies the public key of the private key handed out
    in the [LeafCert], and carries six extensions in the order subject key
    identifier, basic constraints (not a CA, no path length), authority key
    identifier, subject alternative name, key usage, extended key usage, all
    critical except the two key identifiers. *)
Theorem leaf_certificate_contents self ids cn on oun nb na kt e leaf e' :
  issue_cert self ids cn on oun nb na kt e = Ok (leaf, e') ->
  exists key cert,
    private_key_pem leaf = mkBlob (private_bytes key) /\
    hd_error (cert_chain_pems leaf) = Some (mkBlob (public_bytes cert)) /\
    b_public_key (tbs cert) = public_key key /\
    issuer cert = subject (_certificate self) /\
    signature cert = sign (tbs cert) (_private_key self) SHA256 /\
    signature_hash_algorithm cert = SHA256 /\
    map critical (extensions cert) = [false; true; false; true; true; true] /\
    extensions_of_class as_ski (extensions cert)
      = [(ski_from_public_key (public_key key), false)] /\
    extensions_of_class as_basic_constraints (extensions cert)
      = [(mkBasicConstraints false None, true)] /\
    extensions_of_class as_key_usage (extensions cert)
      = [(leaf_key_usage, true)] /\
    extensions_of_class as_extended_key_usage (extensions cert)
      = [([CLIENT_AUTH; SERVER_AUTH; CODE_SIGNING], true)] /\
    exists ski crit san,
      get_extension_for_class as_ski (extensions (_certificate self))
        = Ok (ski, crit) /\
      map ext_value (extensions cert)
        = [ ExtSubjectKeyIdentifier (ski_from_public_key (public_key key));
            ExtBasicConstraints (mkBasicConstraints false None);
            ExtAuthorityKeyIdentifier (mkAKI (Some (digest ski)) None None);
            ExtSubjectAlternativeName san;
            ExtKeyUsage leaf_key_usage;
            ExtExtendedKeyUsage [CLIENT_AUTH; SERVER_AUTH; CODE_SIGNING] ].
Proof.
  intros H. apply issue_cert_inv in H as (key & cert & H & ->).
  exists key, cert.
  apply issue_cert_sign_inv in H
    as (_ & ski & crit & u & serial & san & Hl & _ & ->).
  repeat (split; [reflexivity|]).
  exists ski, crit, san. split; [exact Hl|reflexivity].
Qed.

(** X5: on a CA that the constructor returned, the authority key
    identifier of an issued leaf is the identifier of the CA's own public
    key, the key whose private half signs the leaf. *)
Theorem leaf_authority_key_is_issuer_key
    parent pl on0 oun0 kt0 e0 self e1 ids cn on oun nb na kt e key cert e' :
  CA_init parent pl on0 oun0 kt0 e0 = Ok (self, e1) ->
  issue_cert_sign self ids cn on oun nb na kt e = Ok ((key, cert), e') ->
  extensions_of_class as_aki (extensions cert)
    = [(from_issuer_subject_key_identifier
          (ski_from_public_key (public_key (_private_key self))), false)] /\
  signature cert = sign (tbs cert) (_private_key self) SHA256.
Proof.
  intros Hca H.
  apply CA_init_inv in Hca as (u0 & s0 & sk & iss & aki & _ & _ & Hc & _).
  apply issue_cert_sign_inv in H
    as (_ & ski & crit & u & serial & san & Hl & _ & ->).
  rewrite Hc in Hl. cbn in Hl. injection Hl as <- _.
  split; reflexivity.
Qed.

(** X6: a child CA made from a CA that the constructor returned carries,
    as authority key identifier, the identifier of the parent's public key;
    its own subject key identifier is that of its own public key. *)
Theorem child_authority_key_is_parent_key
    parent pl on0 oun0 kt0 e0 self e1 kt e child e' :
  CA_init parent pl on0 oun0 kt0 e0 = Ok (self, e1) ->
  create_child_ca self kt e = Ok (child, e') ->
  extensions_of_class as_aki (extensions (_certificate child))
    = [(from_issuer_subject_key_identifier
          (ski_from_public_key (public_key (_private_key self))), false)] /\
  extensions_of_class as_ski (extensions (_certificate child))
    = [(ski_from_public_key (public_key (_private_key child)), false)] /\
  signature (_certificate child)
    = sign (tbs (_certificate child)) (_private_key self) SHA256.
Proof.
  intros Hca H.
  apply CA_init_inv in Hca as (u0 & s0 & sk & iss & aki & _ & _ & Hc & _).
  destruct (Z.eq_dec (_path_length self) 0) as [Hz|Hn].
  - rewrite create_child_ca_zero in H by assumption. discriminate.
  - rewrite create_child_ca_nonzero in H by assumption.
    apply CA_init_inv in H
      as (u & s & sk' & iss' & aki' & _ & _ & Hcc & -> & _ & ski & crit & Hl & ->).
    rewrite Hc in Hl. cbn in Hl. injection Hl as <- _.
    rewrite Hcc. repeat split.
Qed.

(** X7: the certificate of every CA that the constructor returns is a CA
    certificate whose basic-constraints path length is the path length the
    CA stores, with key usage digitalSignature, keyCertSign and cRLSign
    only; the extensions are three without a parent and four with one. *)
Theorem constructor_certificate_matches_path_length
    parent pl on oun kt e ca e' :
  CA_init parent pl on oun kt e = Ok (ca, e') ->
  extensions_of_class as_basic_constraints (extensions (_certificate ca))
    = [(mkBasicConstraints true (Some (_path_length ca)), true)] /\
  extensions_of_class as_key_usage (extensions (_certificate ca))
    = [(ca_key_usage, true)] /\
  extensions_of_class as_san (extensions (_certificate ca)) = [] /\
  map critical (extensions (_certificate ca))
    = match parent with
      | Some _ => [false; true; false; true]
      | None => [false; true; true]
      end.
Proof.
  intros H. apply CA_init_inv in H
    as (u & s & sk & iss & aki & _ & Hl & Hc & Hrest).
  rewrite Hc, Hl. destruct parent as [p|].
  - destruct Hrest as (_ & _ & ski & crit & _ & ->). repeat split.
  - destruct Hrest as (_ & _ & ->). repeat split.
Qed.

(** X8: the validity window of a leaf certificate is the caller's
    [not_before] and [not_after] where given and 2000-01-01 and 3000-01-01
    where not; that of a CA certificate is always 2000-01-01 to
    3000-01-01. *)
Theorem validity_windows :
  (forall self ids cn on oun nb na kt e key cert e',
     issue_cert_sign self ids cn on oun nb na kt e = Ok ((key, cert), e') ->
     b_not_valid_before (tbs cert)
       = match nb with Some d => d | None => mkDatetime 2000 1 1 end /\
     b_not_valid_after (tbs cert)
       = match na with Some d => d | None => mkDatetime 3000 1 1 end) /\
  (forall parent pl on oun kt e ca e',
     CA_init parent pl on oun kt e = Ok (ca, e') ->
     b_not_valid_before (tbs (_certificate ca)) = mkDatetime 2000 1 1 /\
     b_not_valid_after (tbs (_certificate ca)) = mkDatetime 3000 1 1).
Proof.
  split.
  - intros self ids cn on oun nb na kt e key cert e' H.
    apply issue_cert_sign_inv in H
      as (_ & ski & crit & u & serial & san & _ & _ & ->).
    split; reflexivity.
  - intros parent pl on oun kt e ca e' H.
    apply CA_init_inv in H as (u & s & sk & iss & aki & _ & _ & -> & _).
    split; reflexivity.
Qed.

(** X9: the subject of a certificate.  A CA certificate has organization
    and unit but never a common name; a leaf certificate has the caller's
    common name when one is given.  The unit is the caller's when it is a
    non-empty string, and otherwise ["Testing CA #"] (["Testing cert #"] for
    a leaf) followed by the URL-safe base64 text of 12 random bytes drawn
    right after the key is generated. *)
Theorem certificate_subjects :
  (forall parent pl on oun kt e ca e',
     CA_init parent pl on oun kt e = Ok (ca, e') ->
     exists e1,
       _generate_key kt e = Ok (_private_key ca, e1) /\
       _name (match str_truthy oun with
              | Some u => u
              | None => ("Testing CA #"
                         ++ urlsafe_b64text (fst (os_urandom 12 e1)))%string
              end) on None
         = Ok (subject (_certificate ca)) /\
       values_for_oid COMMON_NAME (subject (_certificate ca)) = []) /\
  (forall self ids cn on oun nb na kt e key cert e',
     issue_cert_sign self ids cn on oun nb na kt e = Ok ((key, cert), e') ->
     exists e1,
       _generate_key kt e = Ok (key, e1) /\
       _name (match str_truthy oun with
              | Some u => u
              | None => ("Testing cert #"
                         ++ urlsafe_b64text (fst (os_urandom 12 e1)))%string
              end) on cn
         = Ok (subject cert) /\
       values_for_oid COMMON_NAME (subject cert)
         = match cn with Some c => [c] | None => [] end).
Proof.
  split.
  - intros parent pl on oun kt e ca e' H.
    destruct (CA_init_unfold parent pl on oun kt e)
      as (key & e1 & u & e2 & Hk & Hu & Heq).
    rewrite Heq in H. clear Heq.
    destruct (match parent with Some _ => _ | None => _ end)
      as [[[sk iss] aki]|x]; [|discriminate].
    destruct (pl <? 0); [discriminate|]. injection H as <- _.
    apply unit_name_or_random_value in Hu. subst u.
    exists e1. cbn [_private_key _certificate]. split; [exact Hk|].
    split; [apply _name_without_common_name|].
    unfold subject. cbn. now destruct (str_truthy on).
  - intros self ids cn on oun nb na kt e key cert e' H.
    assert (Hg : ~ (ids = [] /\ cn = None)).
    { intros [-> ->]. rewrite issue_cert_sign_guard in H. discriminate. }
    destruct (issue_cert_sign_unfold self on oun nb na kt e Hg)
      as (k & e1 & u & e2 & Hk & Hu & Heq).
    rewrite Heq in H. clear Heq.
    destruct (get_extension_for_class as_ski (extensions (_certificate self)))
      as [[ski crit]|x]; [|discriminate].
    rewrite _name_result in H.
    destruct (common_name_ok cn) eqn:Hcn; [|discriminate].
    destruct (_cert_builder_common _ _ _ _ _ _) as [[common e3]|x] eqn:Hc;
      [|discriminate].
    apply _cert_builder_common_inv in Hc as (_ & serial & ->).
    destruct (identities_to_x509 ids) as [san|x]; [|discriminate].
    injection H as <- <- _.
    apply unit_name_or_random_value in Hu. subst u.
    exists e1. split; [exact Hk|].
    split; [now rewrite _name_result, Hcn|].
    unfold subject. cbn.
    destruct (str_truthy on), cn; reflexivity.
Qed.

(** *** Depth of the hierarchy *)

Lemma chain_authorities_child (c p : CA) :
  parent_cert c = Some p ->
  chain_authorities c = c :: chain_authorities p /\ root_of c = root_of p.
Proof. destruct c as [pc k n cert]. cbn. intros ->. now split. Qed.

Lemma descend_inv key_types :
  forall ca e d e',
    descend key_types ca e = Ok (d, e') ->
    _path_length d = _path_length ca - Z.of_nat (List.length key_types) /\
    root_of d = root_of ca /\
    exists ds,
      chain_authorities d = ds ++ chain_authorities ca /\
      List.length ds = List.length key_types.
Proof.
  induction key_types as [|kt rest IH]; intros ca e d e' H.
  - cbn in H. unfold ret in H. injection H as <- _.
    split; [cbn; lia|]. split; [reflexivity|]. now exists [].
  - cbn [descend] in H.
    apply bind_Ok_inv in H as (child & e1 & Hc & H).
    apply create_child_ca_inv in Hc as (_ & Hp & Hl).
    apply IH in H as (Hd & Hr & ds & Hds & Hlen).
    destruct (chain_authorities_child _ Hp) as [Hch Hroot].
    split; [rewrite Hd, Hl; cbn [List.length]; lia|].
    split; [now rewrite Hr|].
    exists (ds ++ [child]). rewrite Hds, Hch, <- app_assoc. split; [reflexivity|].
    rewrite length_app. cbn. lia.
Qed.


(** X11: a leaf issued [k] levels of child CAs below a CA has a chain of
    [k] entries more than one issued by that CA itself, the additional ones
    first; below a CA without a parent the chain has exactly [k] entries and
    [cert_chain_pems] has [k + 1]. *)
Theorem chain_length_is_depth key_types ca e0 d e1
    ids cn on oun nb na kt e leaf e' :
  descend key_types ca e0 = Ok (d, e1) ->
  issue_cert d ids cn on oun nb na kt e = Ok (leaf, e') ->
  (exists ds,
     tl (cert_chain_pems leaf)
       = map cert_pem ds ++ map cert_pem (chain_authorities ca) /\
     List.length ds = List.length key_types) /\
  (parent_cert ca = None ->
   List.length (tl (cert_chain_pems leaf)) = List.length key_types /\
   List.length (cert_chain_pems leaf) = S (List.length key_types)).
Proof.
  intros Hd Hl.
  apply descend_inv in Hd as (_ & _ & ds & Hds & Hlen).
  apply issue_cert_inv in Hl as (key & cert & _ & ->).
  cbn [LeafCert_init cert_chain_pems app map tl List.length].
  rewrite map_map.
  change (fun x : CA => mkBlob (public_bytes (_certificate x))) with cert_pem.
  rewrite Hds, map_app. split.
  - exists ds. now split.
  - intros Hp. destruct ca as [pc k n c]. cbn in Hp. subst pc. cbn.
    rewrite app_nil_r, length_map. now split; [|f_equal].
Qed.

(** *** Export and import *)

Lemma issue_cert_sign_depends_on_certificate_and_key (a b : CA) :
  _certificate a = _certificate b ->
  _private_key a = _private_key b ->
  forall ids cn on oun nb na kt e,
    issue_cert_sign a ids cn on oun nb na kt e
    = issue_cert_sign b ids cn on oun nb na kt e.
Proof.
  intros Hc Hk ids cn on oun nb na kt e. unfold issue_cert_sign.
  now rewrite Hc, Hk.
Qed.

Lemma from_pem_Ok cert_bytes key_bytes e c k :
  load_pem_x509_certificate cert_bytes = Ok c ->
  load_pem_private_key key_bytes = Ok k ->
  exists ca e',
    from_pem cert_bytes key_bytes e = Ok (ca, e') /\
    parent_cert ca = None /\
    _path_length ca = 9 /\
    _certificate ca = c /\
    _private_key ca = k.
Proof.
  intros Hc Hk. unfold from_pem.
  destruct (@CA_init_Ok P B None 9 None None ECDSA e ltac:(lia) I)
    as (ca0 & e1 & H0).
  rewrite (bind_Ok _ _ _ H0). unfold bind, lift. rewrite Hc, Hk. unfold ret.
  apply CA_init_inv in H0 as (? & ? & ? & ? & ? & _ & Hl & _).
  eexists _, _. split; [reflexivity|]. cbn. now repeat split.
Qed.

(** X12: importing what a CA exports.  When the PEM loaders read back the
    certificate and key that the encoders wrote, [from_pem] on a CA's own
    [cert_pem] and [private_key_pem] returns a CA with the same certificate
    and key, which signs exactly the leaf certificates the original would;
    but it has no parent and path length 9 whatever the original had, so the
    leaves it issues have an empty chain. *)
Theorem export_import_round_trip ca e :
  load_pem_x509_certificate (public_bytes (_certificate ca))
    = Ok (_certificate ca) ->
  load_pem_private_key (private_bytes (_private_key ca))
    = Ok (_private_key ca) ->
  exists ca' e',
    reimport ca e = Ok (ca', e') /\
    _certificate ca' = _certificate ca /\
    _private_key ca' = _private_key ca /\
    parent_cert ca' = None /\
    _path_length ca' = 9 /\
    (forall ids cn on oun nb na kt e2,
       issue_cert_sign ca' ids cn on oun nb na kt e2
       = issue_cert_sign ca ids cn on oun nb na kt e2) /\
    (forall ids cn on oun nb na kt e2 leaf e3,
       issue_cert ca' ids cn on oun nb na kt e2 = Ok (leaf, e3) ->
       tl (cert_chain_pems leaf) = []).
Proof.
  intros Hc Hk. unfold reimport, cert_pem, ca_private_key_pem. cbn [_data].
  destruct (from_pem_Ok _ _ e Hc Hk) as (ca' & e' & H & Hp & Hl & Hcert & Hkey).
  exists ca', e'. split; [exact H|]. split; [exact Hcert|].
  split; [exact Hkey|]. split; [exact Hp|]. split; [exact Hl|]. split.
  - now apply issue_cert_sign_depends_on_certificate_and_key.
  - intros ids cn on oun nb na kt e2 leaf e3 Hleaf.
    apply issue_cert_inv in Hleaf as (key & cert & _ & ->).
    destruct ca' as [pc k n c]. cbn in Hp. subst pc. reflexivity.
Qed.

End Hierarchy.

(** ** Properties of files and contexts *)

Section FilesAndContexts.
Context {P : Primitives} {B : Backend}.
Variable temp_name : option string -> FileSystem -> string.

Lemma fs_put_same path contents fs : fs_put path contents fs path = Some contents.
Proof. unfold fs_put. now rewrite String.eqb_refl. Qed.

Lemma fs_put_other path contents fs p :
  p <> path -> fs_put path contents fs p = fs p.
Proof.
  unfold fs_put. intros H. destruct (String.eqb_spec p path); [contradiction|reflexivity].
Qed.

Lemma fs_unlink_same path fs : fs_unlink path fs path = None.
Proof. unfold fs_unlink. now rewrite String.eqb_refl. Qed.

Lemma fs_unlink_other path fs p : p <> path -> fs_unlink path fs p = fs p.
Proof.
  unfold fs_unlink. intros H.
  destruct (String.eqb_spec p path); [contradiction|reflexivity].
Qed.

Lemma append_all_cons b rest path fs :
  append_all (b :: rest) path fs
  = append_all rest path (write_to_path b path true fs).
Proof. reflexivity. Qed.

Lemma append_all_contents blobs path :
  forall fs old,
    fs path = Some old ->
    append_all blobs path fs path = Some (old ++ List.concat (map _data blobs)) /\
    forall p, p <> path -> append_all blobs path fs p = fs p.
Proof.
  induction blobs as [|b rest IH]; intros fs old Hold.
  - cbn. rewrite app_nil_r. now split.
  - rewrite append_all_cons.
    assert (H1 : write_to_path b path true fs path = Some (old ++ _data b)).
    { unfold write_to_path, open_and_write. now rewrite fs_put_same, Hold. }
    destruct (IH _ _ H1) as [Hc Ho]. split.
    + rewrite Hc. cbn [map List.concat]. now rewrite <- app_assoc.
    + intros p Hp. rewrite (Ho p Hp). unfold write_to_path, open_and_write.
      now apply fs_put_other.
Qed.

(** X13: writing a leaf's private key to a path and then appending each
    entry of its [cert_chain_pems] to the same path leaves every file
    exactly as writing the one blob [private_key_and_cert_chain_pem] there
    does, whatever was at the path before. *)
Theorem written_pieces_make_the_bundle
    self ids cn on oun nb na kt e leaf e' path fs :
  issue_cert self ids cn on oun nb na kt e = Ok (leaf, e') ->
  forall p,
    append_all (cert_chain_pems leaf) path
      (write_to_path (private_key_pem leaf) path false fs) p
    = write_to_path (private_key_and_cert_chain_pem leaf) path false fs p.
Proof.
  intros H p. apply issue_cert_inv in H as (key & cert & _ & ->).
  set (leaf := LeafCert_init _ _ _).
  set (fs1 := write_to_path (private_key_pem leaf) path false fs).
  assert (H1 : fs1 path = Some (_data (private_key_pem leaf)))
    by (unfold fs1, write_to_path, open_and_write; apply fs_put_same).
  destruct (append_all_contents (cert_chain_pems leaf) path fs1 H1) as [Hc Ho].
  destruct (String.eqb_spec p path) as [->|Hp].
  - rewrite Hc. unfold write_to_path, open_and_write. rewrite fs_put_same.
    unfold leaf.
    cbn [LeafCert_init private_key_pem cert_chain_pems
         private_key_and_cert_chain_pem _data app map List.concat].
    rewrite map_map. cbn [_data]. now rewrite map_id.
  - rewrite (Ho p Hp). unfold fs1, write_to_path, open_and_write.
    now rewrite !fs_put_other.
Qed.

(** [write_to_path] touches one file.  Without [append] the file then
    holds the blob's bytes; with [append] it holds what it held before
    followed by the blob's bytes, or just the blob's bytes when there was no
    file; every other path is as before. *)
Lemma write_to_path_contents self path append fs :
  write_to_path self path append fs path
    = Some (match append, fs path with
            | true, Some old => old ++ Blob_bytes self
            | _, _ => Blob_bytes self
            end) /\
  forall p, p <> path -> write_to_path self path append fs p = fs p.
Proof.
  unfold write_to_path, open_and_write, Blob_bytes. split.
  - destruct append; rewrite fs_put_same; [destruct (fs path)|]; reflexivity.
  - intros p Hp. destruct append; now apply fs_put_other.
Qed.

(** X14: the temporary file of [Blob.tempfile].  The body runs with a file
    at the temporary path that holds the blob's bytes; if the file is still
    there when the body returns or raises, the outcome is the body's, the
    file is removed and every other path is as the body left it; so a body
    that leaves the file system alone, on a path that was free, leaves no
    trace. *)
Theorem tempfile_is_removed {St A : Type} (self : Blob) dir
    (body : string -> FileSystem * St -> outcome A * (FileSystem * St))
    fs st :
  let name := temp_name dir fs in
  let during := fs_put name (Blob_bytes self) (fs_put name [] fs) in
  during name = Some (Blob_bytes self) /\
  (forall p, p <> name -> during p = fs p) /\
  forall r fs1 st1,
    body name (during, st) = (r, (fs1, st1)) ->
    fs1 name <> None ->
    exists fs2,
      with_tempfile temp_name self dir body (fs, st) = (r, (fs2, st1)) /\
      fs2 name = None /\
      (forall p, p <> name -> fs2 p = fs1 p) /\
      (fs name = None -> (forall p, fs1 p = during p) -> forall p, fs2 p = fs p).
Proof.
  cbv zeta. split; [apply fs_put_same|]. split.
  - intros p Hp. now rewrite !fs_put_other.
  - intros r fs1 st1 Hb Hthere.
    exists (fs_unlink (temp_name dir fs) fs1).
    unfold with_tempfile. cbn [fst snd]. unfold open_and_write.
    rewrite fs_put_same. cbn [app]. unfold Blob_bytes in Hb. rewrite Hb.
    destruct (fs1 (temp_name dir fs)) eqn:H1; [|contradiction].
    split; [reflexivity|]. split; [apply fs_unlink_same|]. split.
    + intros p Hp. now apply fs_unlink_other.
    + intros Hfree Hsame p.
      destruct (String.eqb_spec p (temp_name dir fs)) as [->|Hp].
      * now rewrite fs_unlink_same.
      * rewrite fs_unlink_other, Hsame by assumption.
        unfold Blob_bytes. now rewrite !fs_put_other.
Qed.

(** X15: when the body has removed the temporary file itself, leaving the
    [with] block raises [FileNotFoundError] for the temporary path, whether
    the body returned or raised. *)
Theorem tempfile_removed_by_body {St A : Type} (self : Blob) dir
    (body : string -> FileSystem * St -> outcome A * (FileSystem * St))
    fs st r fs1 st1 :
  let name := temp_name dir fs in
  body name (fs_put name (Blob_bytes self) (fs_put name [] fs), st)
    = (r, (fs1, st1)) ->
  fs1 name = None ->
  with_tempfile temp_name self dir body (fs, st)
    = (Raises (FileNotFoundError name), (fs1, st1)).
Proof.
  cbv zeta. intros Hb Hgone. unfold with_tempfile. cbn [fst snd].
  unfold open_and_write. rewrite fs_put_same. cbn [app].
  unfold Blob_bytes in Hb. rewrite Hb, Hgone. reflexivity.
Qed.

(** *** Contexts *)

Lemma calls_fold_left (f : Blob -> ctx_call) (l : list Blob) :
  forall ctx,
    fold_left (fun ctx pem => call (f pem) ctx) l ctx
    = {| is_SSLContext := is_SSLContext ctx;
         module_attr := module_attr ctx;
         class_name := class_name ctx;
         calls := calls ctx ++ map f l |}.
Proof.
  induction l as [|b rest IH]; intros ctx; cbn [fold_left map].
  - rewrite app_nil_r. now destruct ctx.
  - rewrite IH. unfold call. cbn. now rewrite <- app_assoc.
Qed.

Lemma startswith_iff s p :
  startswith s p = true <-> exists rest, s = (p ++ rest)%string.
Proof.
  revert s. induction p as [|c p IH]; intros s; cbn.
  - split; [intros _; now exists s|reflexivity].
  - destruct s as [|a s].
    + split; [discriminate|intros [rest H]; discriminate].
    + destruct (Ascii.eqb_spec a c) as [->|Hne].
      * rewrite IH. split; intros [rest H]; exists rest; [now rewrite H|].
        now injection H.
      * split; [discriminate|]. intros [rest H]. injection H as H _.
        contradiction.
Qed.

(** A context the module recognizes: an [ssl.SSLContext], or an object
    whose [__module__] begins with ["OpenSSL"]. *)
Lemma unrecognized_iff ctx :
  (is_SSLContext ctx = false /\ _smells_like_pyopenssl ctx = false) <->
  (is_SSLContext ctx = false /\
   forall m rest, module_attr ctx = Some m -> m <> ("OpenSSL" ++ rest)%string).
Proof.
  unfold _smells_like_pyopenssl. split; intros [Hs Hm]; (split; [exact Hs|]).
  - intros m rest Hmod Heq. rewrite Hmod in Hm.
    assert (Ht : startswith m "OpenSSL" = true) by (apply startswith_iff; eauto).
    congruence.
  - destruct (module_attr ctx) as [m|]; [|reflexivity].
    destruct (startswith m "OpenSSL") eqn:Ht; [|reflexivity].
    apply startswith_iff in Ht as [rest Heq]. now elim (Hm m rest eq_refl).
Qed.

Lemma with_tempfile_load_cert_chain (self : Blob) fs ctx :
  with_tempfile temp_name self None ctx_load_cert_chain (fs, ctx)
  = (Returns tt,
     (fs_unlink (temp_name None fs)
        (fs_put (temp_name None fs) (_data self)
           (fs_put (temp_name None fs) [] fs)),
      call (load_cert_chain (temp_name None fs) (_data self)) ctx)).
Proof.
  unfold with_tempfile, open_and_write. cbn [fst snd].
  rewrite fs_put_same. cbn [app].
  unfold ctx_load_cert_chain at 1. cbn [fst snd].
  rewrite fs_put_same. cbv iota beta. rewrite fs_put_same. reflexivity.
Qed.

(** X16: [configure_trust] and [configure_cert] raise the type error that
    names the context's class exactly when the context is not an
    [ssl.SSLContext] and its [__module__] (the empty string when it has
    none) does not begin with ["OpenSSL"]; nothing is then called on the
    context and no file is written. *)
Theorem unrecognized_context_is_refused (ca : CA) (leaf : LeafCert) fs ctx :
  let unrecognized :=
    is_SSLContext ctx = false /\
    forall m rest, module_attr ctx = Some m -> m <> ("OpenSSL" ++ rest)%string in
  (fst (configure_trust ca ctx) = Raises (Raised (unrecognized_context ctx))
   <-> unrecognized) /\
  (fst (configure_cert temp_name leaf (fs, ctx))
     = Raises (Raised (unrecognized_context ctx))
   <-> unrecognized) /\
  (unrecognized ->
   configure_trust ca ctx = (Raises (Raised (unrecognized_context ctx)), ctx) /\
   configure_cert temp_name leaf (fs, ctx)
     = (Raises (Raised (unrecognized_context ctx)), (fs, ctx))).
Proof.
  cbv zeta. rewrite <- unrecognized_iff.
  unfold configure_trust, configure_cert, unrecognized_context. cbn [fst snd].
  destruct (is_SSLContext ctx) eqn:Hs.
  - rewrite with_tempfile_load_cert_chain. cbn [fst].
    unfold decode_ascii.
    destruct (forallb is_ascii_byte (Blob_bytes (cert_pem ca))); cbn [fst];
      (split; [|split]); try (split; [discriminate|intros [Hx _]; discriminate]);
      intros [Hx _]; discriminate.
  - destruct (_smells_like_pyopenssl ctx) eqn:Hm.
    + destruct (cert_chain_pems leaf); cbn [fst];
        (split; [|split]); try (split; [discriminate|intros [_ Hx]; discriminate]);
        intros [_ Hx]; discriminate.
    + cbn [fst]. repeat split; reflexivity.
Qed.

(** X17: on a pyOpenSSL context, [configure_cert] of an issued leaf makes
    the calls [use_privatekey] with the leaf's key, [use_certificate] with
    the leaf's certificate, and one [add_extra_chain_cert] for the
    certificate of each CA on the chain, from the issuing CA upwards and
    without the parentless CA at the top; it writes no file. *)
Theorem configure_cert_on_pyopenssl
    self ids cn on oun nb na kt e leaf e' fs ctx :
  issue_cert self ids cn on oun nb na kt e = Ok (leaf, e') ->
  is_SSLContext ctx = false ->
  _smells_like_pyopenssl ctx = true ->
  exists key cert ctx',
    issue_cert_sign self ids cn on oun nb na kt e = Ok ((key, cert), e') /\
    configure_cert temp_name leaf (fs, ctx) = (Returns tt, (fs, ctx')) /\
    calls ctx'
      = calls ctx
        ++ [use_privatekey (private_bytes key); use_certificate (public_bytes cert)]
        ++ map (fun c => add_extra_chain_cert (public_bytes (_certificate c)))
             (chain_authorities self).
Proof.
  intros H Hs Hm. apply issue_cert_inv in H as (key & cert & H & ->).
  exists key, cert. unfold configure_cert. cbn [fst snd]. rewrite Hs, Hm.
  cbn [LeafCert_init cert_chain_pems private_key_pem app map].
  rewrite calls_fold_left. eexists. split; [exact H|]. split; [reflexivity|].
  cbn [calls call Blob_bytes _data]. rewrite !map_map. cbn [_data].
  now rewrite <- !app_assoc.
Qed.

(** X18: on an [ssl.SSLContext], whatever its [__module__],
    [configure_cert] makes the one call [load_cert_chain] on a temporary
    file that holds the leaf's bundle, and returns with that file removed
    and every other file untouched; when the temporary path was free, the
    file system is as it was before. *)
Theorem configure_cert_on_ssl_context (leaf : LeafCert) fs ctx :
  is_SSLContext ctx = true ->
  let name := temp_name None fs in
  exists fs',
    configure_cert temp_name leaf (fs, ctx)
      = (Returns tt,
         (fs', call (load_cert_chain name
                       (Blob_bytes (private_key_and_cert_chain_pem leaf))) ctx)) /\
    fs' name = None /\
    (forall p, p <> name -> fs' p = fs p) /\
    (fs name = None -> forall p, fs' p = fs p).
Proof.
  intros Hs. cbv zeta. unfold configure_cert. cbn [snd]. rewrite Hs.
  rewrite with_tempfile_load_cert_chain. eexists. split; [reflexivity|].
  split; [apply fs_unlink_same|].
  assert (Hother : forall p, p <> temp_name None fs ->
            fs_unlink (temp_name None fs)
              (fs_put (temp_name None fs)
                 (_data (private_key_and_cert_chain_pem leaf))
                 (fs_put (temp_name None fs) [] fs)) p = fs p).
  { intros p Hp. rewrite fs_unlink_other, !fs_put_other by assumption.
    reflexivity. }
  split; [exact Hother|].
  intros Hfree p. destruct (String.eqb_spec p (temp_name None fs)) as [->|Hp].
  - now rewrite fs_unlink_same.
  - now apply Hother.
Qed.


End FilesAndContexts.

(** ** The further properties on the deterministic backend *)

Module Runs.
Import Stub Fixtures.
#[local] Existing Instance prims.
#[local] Existing Instance backend.

Lemma san_of_three_identities :
  exists san,
    extensions_of_class as_san (extensions (snd signed)) = [(san, true)] /\
    Forall2 (fun o g => _identity_string_to_x509 o = Ok g) three_identities san /\
    List.length san = List.length three_identities.
Proof.
  exact (@san_follows_identities prims backend issuing three_identities None
           None None None None ECDSA 9 (fst signed) (snd signed) 12 eq_refl).
Defined.

Lemma third_identity_fails_first :
  identities_to_x509 [PyStr "example.com"; PyStr "10.0.0.0/8"; PyInt 7; PyStr ""]
    = Err (TypeError "identities must be str").
Proof.
  apply (proj2 (@identities_fail_at_first_error prims backend
                  [PyStr "example.com"; PyStr "10.0.0.0/8"; PyInt 7; PyStr ""]
                  (TypeError "identities must be str"))).
  exists [PyStr "example.com"; PyStr "10.0.0.0/8"], (PyInt 7), [PyStr ""],
    [@DNSName prims "example.com"; @IPAddress prims (inr "10.0.0.0/8")].
  split; [reflexivity|]. split; [|reflexivity].
  repeat constructor.
Defined.


Lemma contents_of_third_level_leaf :
  exists key cert,
    private_key_pem leaf = mkBlob (private_bytes key) /\
    hd_error (cert_chain_pems leaf) = Some (mkBlob (public_bytes cert)) /\
    b_public_key (tbs cert) = public_key key /\
    issuer cert = subject (_certificate issuing) /\
    signature cert = sign (tbs cert) (_private_key issuing) SHA256.
Proof.
  destruct (@leaf_certificate_contents prims backend issuing
              [PyStr "example.com"] None None None None None ECDSA 9 leaf 12
              eq_refl)
    as (key & cert & H1 & H2 & H3 & H4 & H5 & _).
  exists key, cert. repeat split; assumption.
Defined.

Lemma authority_key_of_root_leaf :
  extensions_of_class as_aki (extensions (snd root_signed))
    = [(from_issuer_subject_key_identifier
          (ski_from_public_key (public_key (_private_key root))), false)] /\
  signature (snd root_signed)
    = sign (tbs (snd root_signed)) (_private_key root) SHA256.
Proof.
  exact (@leaf_authority_key_is_issuer_key prims backend None 9 None None ECDSA
           0 root 3 [PyStr "example.com"] (Some "host") None (Some "web")
           (Some year_2020) (Some year_2030) RSA 3 (fst root_signed)
           (snd root_signed) 5 eq_refl eq_refl).
Defined.

Lemma authority_key_of_intermediate :
  extensions_of_class as_aki (extensions (_certificate intermediate))
    = [(from_issuer_subject_key_identifier
          (ski_from_public_key (public_key (_private_key root))), false)] /\
  extensions_of_class as_ski (extensions (_certificate intermediate))
    = [(ski_from_public_key (public_key (_private_key intermediate)), false)] /\
  signature (_certificate intermediate)
    = sign (tbs (_certificate intermediate)) (_private_key root) SHA256.
Proof.
  exact (@child_authority_key_is_parent_key prims backend None 9 None None ECDSA
           0 root 3 ECDSA 3 intermediate 6 eq_refl eq_refl).
Defined.

Lemma path_length_in_intermediate_certificate :
  extensions_of_class as_basic_constraints (extensions (_certificate intermediate))
    = [(mkBasicConstraints true (Some (_path_length intermediate)), true)] /\
  extensions_of_class as_key_usage (extensions (_certificate intermediate))
    = [(ca_key_usage, true)] /\
  extensions_of_class as_san (extensions (_certificate intermediate)) = [] /\
  map critical (extensions (_certificate intermediate))
    = [false; true; false; true].
Proof.
  exact (@constructor_certificate_matches_path_length prims backend (Some root)
           8 None None ECDSA 3 intermediate 6 eq_refl).
Defined.

Lemma validity_of_root_leaf_and_root :
  (b_not_valid_before (tbs (snd root_signed)) = year_2020 /\
   b_not_valid_after (tbs (snd root_signed)) = year_2030) /\
  (b_not_valid_before (tbs (_certificate root)) = mkDatetime 2000 1 1 /\
   b_not_valid_after (tbs (_certificate root)) = mkDatetime 3000 1 1).
Proof.
  destruct (@validity_windows prims backend) as [Hleaf Hca].
  split.
  - exact (Hleaf root [PyStr "example.com"] (Some "host") None (Some "web")
             (Some year_2020) (Some year_2030) RSA 3 (fst root_signed)
             (snd root_signed) 5 eq_refl).
  - exact (Hca None 9 None None ECDSA 0 root 3 eq_refl).
Defined.

Lemma subjects_of_root_and_leaf :
  values_for_oid COMMON_NAME (subject (_certificate root)) = [] /\
  values_for_oid COMMON_NAME (subject (snd root_signed)) = ["host"] /\
  values_for_oid ORGANIZATIONAL_UNIT_NAME (subject (snd root_signed)) = ["web"] /\
  values_for_oid ORGANIZATIONAL_UNIT_NAME (subject (_certificate root))
    = ["Testing CA #AAAAAAAAAAAAAAAA"].
Proof.
  destruct (@certificate_subjects prims backend) as [Hca Hleaf].
  destruct (Hca None 9 None None ECDSA 0 root 3 eq_refl) as (e1 & _ & Hs & Hcn).
  destruct (Hleaf root [PyStr "example.com"] (Some "host") None (Some "web")
              (Some year_2020) (Some year_2030) RSA 3 (fst root_signed)
              (snd root_signed) 5 eq_refl) as (e2 & _ & Hs' & Hcn').
  split; [exact Hcn|]. split; [exact Hcn'|].
  split; reflexivity.
Defined.


Lemma chain_two_levels_down :
  (exists ds,
     tl (cert_chain_pems leaf)
       = map cert_pem ds ++ map cert_pem (chain_authorities root) /\
     List.length ds = 2%nat) /\
  (parent_cert root = None ->
   List.length (tl (cert_chain_pems leaf)) = 2%nat /\
   List.length (cert_chain_pems leaf) = 3%nat).
Proof.
  exact (@chain_length_is_depth prims backend [ECDSA; RSA] root 3 issuing 9
           [PyStr "example.com"] None None None None None ECDSA 9 leaf 12
           eq_refl eq_refl).
Defined.

Lemma intermediate_exported_and_imported :
  exists ca' e',
    reimport (B := reading_backend) intermediate 0 = Ok (ca', e') /\
    _certificate ca' = _certificate intermediate /\
    _private_key ca' = _private_key intermediate /\
    parent_cert ca' = None /\
    _path_length ca' = 9 /\
    parent_cert intermediate = Some root /\
    _path_length intermediate = 8.
Proof.
  destruct (@export_import_round_trip prims reading_backend intermediate 0
              eq_refl eq_refl)
    as (ca' & e' & H & Hc & Hk & Hp & Hl & _).
  exists ca', e'. repeat split; assumption.
Defined.

Lemma pieces_written_to_a_used_path :
  append_all (cert_chain_pems leaf) "/srv/server.pem"
    (write_to_path (private_key_pem leaf) "/srv/server.pem" false one_file)
    "/srv/server.pem"
  = write_to_path (private_key_and_cert_chain_pem leaf) "/srv/server.pem"
      false one_file "/srv/server.pem" /\
  append_all (cert_chain_pems leaf) "/srv/server.pem"
    (write_to_path (private_key_pem leaf) "/srv/server.pem" false one_file)
    "/srv/other.pem"
  = write_to_path (private_key_and_cert_chain_pem leaf) "/srv/server.pem"
      false one_file "/srv/other.pem".
Proof.
  split;
    exact (@written_pieces_make_the_bundle prims backend issuing
             [PyStr "example.com"] None None None None None ECDSA 9 leaf 12
             "/srv/server.pem" one_file eq_refl _).
Defined.

Lemma tempfile_of_bundle_leaves_no_trace :
  exists fs2,
    with_tempfile temp_path (private_key_and_cert_chain_pem leaf) None
      ctx_load_cert_chain (one_file, ssl_context)
    = (Returns tt,
       (fs2, call (load_cert_chain "/tmp/tmp0.pem"
                     (_data (private_key_and_cert_chain_pem leaf)))
               ssl_context)) /\
    fs2 "/tmp/tmp0.pem" = None /\
    (forall p, fs2 p = one_file p).
Proof.
  destruct (@tempfile_is_removed temp_path context unit
              (private_key_and_cert_chain_pem leaf) None ctx_load_cert_chain
              one_file ssl_context) as (_ & _ & Hexit).
  destruct (Hexit (Returns tt)
              (fs_put "/tmp/tmp0.pem"
                 (_data (private_key_and_cert_chain_pem leaf))
                 (fs_put "/tmp/tmp0.pem" [] one_file))
              (call (load_cert_chain "/tmp/tmp0.pem"
                       (_data (private_key_and_cert_chain_pem leaf)))
                 ssl_context)
              eq_refl ltac:(discriminate))
    as (fs2 & Hrun & Hgone & _ & Hsame).
  exists fs2. split; [exact Hrun|]. split; [exact Hgone|].
  apply Hsame; reflexivity.
Defined.

Lemma deleting_body_breaks_exit :
  fst (with_tempfile temp_path (mkBlob [x2d]) (Some "/var") deleting_body
         (no_files, ssl_context))
  = Raises (FileNotFoundError "/var/tmp0.pem").
Proof.
  rewrite (@tempfile_removed_by_body temp_path context unit (mkBlob [x2d])
             (Some "/var") deleting_body no_files ssl_context (Returns tt)
             (fs_unlink "/var/tmp0.pem"
                (fs_put "/var/tmp0.pem" [x2d] (fs_put "/var/tmp0.pem" [] no_files)))
             ssl_context eq_refl eq_refl).
  reflexivity.
Defined.

Lemma dict_is_refused :
  configure_trust root other_context
    = (Raises (Raised (TypeError "unrecognized context type 'dict'")),
       other_context) /\
  configure_cert temp_path leaf (no_files, other_context)
    = (Raises (Raised (TypeError "unrecognized context type 'dict'")),
       (no_files, other_context)).
Proof.
  apply (proj2 (proj2 (@unrecognized_context_is_refused prims backend temp_path
                         root leaf no_files other_context))).
  split; [reflexivity|].
  intros m rest [= <-]. destruct rest; discriminate.
Defined.

Lemma third_level_leaf_on_pyopenssl :
  exists key cert ctx',
    issue_cert_sign issuing [PyStr "example.com"] None None None None None
      ECDSA 9 = Ok ((key, cert), 12) /\
    configure_cert temp_path leaf (one_file, pyopenssl_context)
      = (Returns tt, (one_file, ctx')) /\
    calls ctx'
      = calls pyopenssl_context
        ++ [use_privatekey (private_bytes key);
            use_certificate (public_bytes cert)]
        ++ map (fun c => add_extra_chain_cert (public_bytes (_certificate c)))
             (chain_authorities issuing).
Proof.
  exact (@configure_cert_on_pyopenssl prims backend temp_path issuing
           [PyStr "example.com"] None None None None None ECDSA 9 leaf 12
           one_file pyopenssl_context eq_refl eq_refl eq_refl).
Defined.

Lemma third_level_leaf_on_ssl_context :
  exists fs',
    configure_cert temp_path leaf (one_file, ssl_context)
      = (Returns tt,
         (fs', call (load_cert_chain "/tmp/tmp0.pem"
                       (Blob_bytes (private_key_and_cert_chain_pem leaf)))
                 ssl_context)) /\
    fs' "/tmp/tmp0.pem" = None /\
    (forall p, p <> "/tmp/tmp0.pem" -> fs' p = one_file p) /\
    (one_file "/tmp/tmp0.pem" = None -> forall p, fs' p = one_file p).
Proof.
  exact (@configure_cert_on_ssl_context temp_path leaf one_file ssl_context
           eq_refl).
Defined.


End Runs.
